(** * PDF Slicer: the application window (src/ui/window.cpp)

    A shallow embedding of [Slicer::AppWindow]: its constructor, the
    handlers of its four actions, and its reactions to the two
    notifications of the command machinery ("command queued" from the
    [CommandSlot], "command executed" from the [Document]).

    The window is a record of the members the code reads and writes.
    Member functions are computations in a small monad over that record
    with three outcomes: normal return, a C++ exception in flight, and
    undefined behaviour (a null smart pointer dereferenced). *)

From Stdlib Require Import String List ZArith Bool Lia.
Import ListNotations.
Local Open Scope string_scope.
Local Open Scope list_scope.

(** ** Toolkit values *)

(** [GTK_RESPONSE_ACCEPT] of the toolkit's response enumeration. *)
Definition GTK_RESPONSE_ACCEPT : Z := (-3)%Z.

(** A [Gio::File], as far as the window looks at it. *)
Record File : Type := mkFile {
  get_path : string;
  get_basename : string
}.

(** The cursor of the window: [set_cursor()] without argument restores the
    default one, [Gdk::Cursor::create(display, name)] makes a named one. *)
Inductive Cursor : Type :=
| DefaultCursor
| NamedCursor (name : string).

(** A [Gio::SimpleAction] added to the window's action map. *)
Record Action : Type := mkAction {
  a_name : string;
  a_enabled : bool
}.

Inductive ActionId : Type := OpenA | SaveA | UndoA | RedoA.

(** What the run of a file dialog gives back: the response code and the
    file selected in it. *)
Record DialogRun : Type := mkDialogRun {
  dlg_result : Z;
  dlg_file : File
}.

(** Where [openDocument] raises, if it does: in the constructor of
    [Document] (the file does not load) or in [Editor::setDocument]. *)
Inductive OpenFault : Type :=
| NoFault
| DocumentCtorThrows
| SetDocumentThrows.

(** The single child of [m_overlay]. *)
Inductive OverlayChild : Type :=
| NoChild
| WelcomeScreen
| EditorWidget.

(** ** The collaborators of the window *)

(** An entry of the document's history. *)
Definition Op : Type := nat.

(** The slot the window connects to a document's [commandExecuted]
    signal: [sigc::mem_fun( *this, &AppWindow::onCommandExecuted)]. *)
Inductive ExecutedSlot : Type := OnCommandExecuted.

(** Modelled from the spec: the class [Document] (its header and
    implementation are not part of the sources at hand).  It owns an undo
    stack and a redo stack, most recent entry first, and the connections of
    its "command executed" signal.  A document made from a path starts with
    an empty history and no connection. *)
Record Document : Type := mkDocument {
  d_path : string;
  undoStack : list Op;
  redoStack : list Op;
  commandExecuted : list ExecutedSlot
}.

(** Modelled from the spec: the constructor of [Document]; a document
    made from a path has nothing to undo or redo and no listener yet. *)
Definition newDocument (path : string) : Document :=
  mkDocument path [] [] [].

(** Modelled from the spec: [canUndo] is true iff the undo stack is not
    empty, [canRedo] iff the redo stack is not empty. *)
Definition canUndo (d : Document) : bool :=
  match undoStack d with [] => false | _ :: _ => true end.

(** Modelled from the spec: see [canUndo]. *)
Definition canRedo (d : Document) : bool :=
  match redoStack d with [] => false | _ :: _ => true end.

(** Modelled from the spec: [undoCommand] moves the most recent entry of
    the undo stack to the redo stack and does nothing on an empty undo
    stack; [redoCommand] is its mirror image. *)
Definition undoCommand (d : Document) : Document :=
  match undoStack d with
  | [] => d
  | op :: rest =>
      mkDocument (d_path d) rest (op :: redoStack d) (commandExecuted d)
  end.

(** Modelled from the spec: see [undoCommand]. *)
Definition redoCommand (d : Document) : Document :=
  match redoStack d with
  | [] => d
  | op :: rest =>
      mkDocument (d_path d) (op :: undoStack d) rest (commandExecuted d)
  end.

(** Modelled from the spec: a new mutating command is pushed on the undo
    stack and clears the redo stack. *)
Definition forwardCommand (op : Op) (d : Document) : Document :=
  mkDocument (d_path d) (op :: undoStack d) [] (commandExecuted d).

(** [commandExecuted().connect(slot)] on a document. *)
Definition connectExecuted (s : ExecutedSlot) (d : Document) : Document :=
  mkDocument (d_path d) (undoStack d) (redoStack d) (commandExecuted d ++ [s]).

(** The deferred operations handed to [CommandSlot::queueCommand].  The
    first two are the lambdas of [onUndoAction] and [onRedoAction].
    Modelled from the spec: [EditorClosure] stands for a command queued by
    the editor, which shares the command slot with the window; it applies a
    new entry to the document, or fails before changing anything. *)
Inductive Closure : Type :=
| UndoClosure
| RedoClosure
| EditorClosure (op : Op) (fails : bool).

(** The slot the window connects to [commandQueuedSignal]: the lambda at
    the end of [setupSignalHandlers]. *)
Inductive QueuedSlot : Type := WindowQueuedHandler.

(** Modelled from the spec: the class [CommandSlot] (not part of the
    sources at hand).  Commands wait in enqueue order for the background
    thread; [commandQueuedSignal] is the public signal the window
    connects to. *)
Record CommandSlot : Type := mkCommandSlot {
  pending : list Closure;
  commandQueuedSignal : list QueuedSlot
}.

(** The slot connected to [m_signalSaved] (the "Saved!" notification). *)
Inductive SavedSlot : Type := ShowSavedNotification.

(** What the user and the other components can observe of the window and
    of the command machinery: the emission of "saved", the run of an error
    dialog, a file written, a call of [queueCommand], a completion
    notification. *)
Inductive Effect : Type :=
| SavedEmitted
| ErrorDialog (message : string)
| DocumentSaved (path : string)
| CommandEnqueued
| CompletionNotified.

(** ** The window *)

Record AppWindow : Type := mkAppWindow {
  m_commandSlot : CommandSlot;
  m_document : option Document;
  m_editor : option string;
  m_overlay : OverlayChild;
  m_headerBar : string;
  m_openAction : option Action;
  m_saveAction : option Action;
  m_undoAction : option Action;
  m_redoAction : option Action;
  m_signalSaved : list SavedSlot;
  m_connectionSaved : bool;
  m_revealerDone : bool;
  m_buttonCloseDone : bool;
  window_cursor : Cursor;
  custom_css : bool;
  effects : list Effect
}.

(** The members before the body of the constructor runs: null action
    pointers, no document, nothing connected. *)
Definition blank (slot : CommandSlot) : AppWindow :=
  mkAppWindow slot None None NoChild "" None None None None
              [] false false false DefaultCursor false [].

Definition with_commandSlot (s : CommandSlot) (w : AppWindow) : AppWindow :=
  mkAppWindow s (m_document w) (m_editor w) (m_overlay w) (m_headerBar w)
    (m_openAction w) (m_saveAction w) (m_undoAction w) (m_redoAction w)
    (m_signalSaved w) (m_connectionSaved w) (m_revealerDone w)
    (m_buttonCloseDone w) (window_cursor w) (custom_css w) (effects w).

Definition with_document (d : option Document) (w : AppWindow) : AppWindow :=
  mkAppWindow (m_commandSlot w) d (m_editor w) (m_overlay w) (m_headerBar w)
    (m_openAction w) (m_saveAction w) (m_undoAction w) (m_redoAction w)
    (m_signalSaved w) (m_connectionSaved w) (m_revealerDone w)
    (m_buttonCloseDone w) (window_cursor w) (custom_css w) (effects w).

Definition with_editor (e : option string) (w : AppWindow) : AppWindow :=
  mkAppWindow (m_commandSlot w) (m_document w) e (m_overlay w) (m_headerBar w)
    (m_openAction w) (m_saveAction w) (m_undoAction w) (m_redoAction w)
    (m_signalSaved w) (m_connectionSaved w) (m_revealerDone w)
    (m_buttonCloseDone w) (window_cursor w) (custom_css w) (effects w).

Definition with_overlay (c : OverlayChild) (w : AppWindow) : AppWindow :=
  mkAppWindow (m_commandSlot w) (m_document w) (m_editor w) c (m_headerBar w)
    (m_openAction w) (m_saveAction w) (m_undoAction w) (m_redoAction w)
    (m_signalSaved w) (m_connectionSaved w) (m_revealerDone w)
    (m_buttonCloseDone w) (window_cursor w) (custom_css w) (effects w).

Definition with_subtitle (s : string) (w : AppWindow) : AppWindow :=
  mkAppWindow (m_commandSlot w) (m_document w) (m_editor w) (m_overlay w) s
    (m_openAction w) (m_saveAction w) (m_undoAction w) (m_redoAction w)
    (m_signalSaved w) (m_connectionSaved w) (m_revealerDone w)
    (m_buttonCloseDone w) (window_cursor w) (custom_css w) (effects w).

Definition action (a : ActionId) (w : AppWindow) : option Action :=
  match a with
  | OpenA => m_openAction w
  | SaveA => m_saveAction w
  | UndoA => m_undoAction w
  | RedoA => m_redoAction w
  end.

Definition with_action (a : ActionId) (v : option Action) (w : AppWindow)
  : AppWindow :=
  mkAppWindow (m_commandSlot w) (m_document w) (m_editor w) (m_overlay w)
    (m_headerBar w)
    (match a with OpenA => v | _ => m_openAction w end)
    (match a with SaveA => v | _ => m_saveAction w end)
    (match a with UndoA => v | _ => m_undoAction w end)
    (match a with RedoA => v | _ => m_redoAction w end)
    (m_signalSaved w) (m_connectionSaved w) (m_revealerDone w)
    (m_buttonCloseDone w) (window_cursor w) (custom_css w) (effects w).

Definition with_signalSaved (s : list SavedSlot) (w : AppWindow) : AppWindow :=
  mkAppWindow (m_commandSlot w) (m_document w) (m_editor w) (m_overlay w)
    (m_headerBar w)
    (m_openAction w) (m_saveAction w) (m_undoAction w) (m_redoAction w)
    s (m_connectionSaved w) (m_revealerDone w)
    (m_buttonCloseDone w) (window_cursor w) (custom_css w) (effects w).

Definition with_connectionSaved (b : bool) (w : AppWindow) : AppWindow :=
  mkAppWindow (m_commandSlot w) (m_document w) (m_editor w) (m_overlay w)
    (m_headerBar w)
    (m_openAction w) (m_saveAction w) (m_undoAction w) (m_redoAction w)
    (m_signalSaved w) b (m_revealerDone w)
    (m_buttonCloseDone w) (window_cursor w) (custom_css w) (effects w).

Definition with_revealerDone (b : bool) (w : AppWindow) : AppWindow :=
  mkAppWindow (m_commandSlot w) (m_document w) (m_editor w) (m_overlay w)
    (m_headerBar w)
    (m_openAction w) (m_saveAction w) (m_undoAction w) (m_redoAction w)
    (m_signalSaved w) (m_connectionSaved w) b
    (m_buttonCloseDone w) (window_cursor w) (custom_css w) (effects w).

Definition with_buttonCloseDone (b : bool) (w : AppWindow) : AppWindow :=
  mkAppWindow (m_commandSlot w) (m_document w) (m_editor w) (m_overlay w)
    (m_headerBar w)
    (m_openAction w) (m_saveAction w) (m_undoAction w) (m_redoAction w)
    (m_signalSaved w) (m_connectionSaved w) (m_revealerDone w)
    b (window_cursor w) (custom_css w) (effects w).

Definition with_cursor (c : Cursor) (w : AppWindow) : AppWindow :=
  mkAppWindow (m_commandSlot w) (m_document w) (m_editor w) (m_overlay w)
    (m_headerBar w)
    (m_openAction w) (m_saveAction w) (m_undoAction w) (m_redoAction w)
    (m_signalSaved w) (m_connectionSaved w) (m_revealerDone w)
    (m_buttonCloseDone w) c (custom_css w) (effects w).

Definition with_css (b : bool) (w : AppWindow) : AppWindow :=
  mkAppWindow (m_commandSlot w) (m_document w) (m_editor w) (m_overlay w)
    (m_headerBar w)
    (m_openAction w) (m_saveAction w) (m_undoAction w) (m_redoAction w)
    (m_signalSaved w) (m_connectionSaved w) (m_revealerDone w)
    (m_buttonCloseDone w) (window_cursor w) b (effects w).

Definition with_effects (l : list Effect) (w : AppWindow) : AppWindow :=
  mkAppWindow (m_commandSlot w) (m_document w) (m_editor w) (m_overlay w)
    (m_headerBar w)
    (m_openAction w) (m_saveAction w) (m_undoAction w) (m_redoAction w)
    (m_signalSaved w) (m_connectionSaved w) (m_revealerDone w)
    (m_buttonCloseDone w) (window_cursor w) (custom_css w) l.

(** Is the action there and enabled? *)
Definition enabled (a : ActionId) (w : AppWindow) : bool :=
  match action a w with
  | Some x => a_enabled x
  | None => false
  end.

(** ** Member functions as computations *)

Inductive Outcome (A : Type) : Type :=
| Ret (a : A) (w : AppWindow)
| Throw (w : AppWindow)
| Undefined.

Arguments Ret {A} a w.
Arguments Throw {A} w.
Arguments Undefined {A}.

Definition M (A : Type) : Type := AppWindow -> Outcome A.

Definition ret {A : Type} (a : A) : M A := fun w => Ret a w.

Definition bind {A B : Type} (c : M A) (k : A -> M B) : M B :=
  fun w =>
    match c w with
    | Ret a w' => k a w'
    | Throw w' => Throw w'
    | Undefined => Undefined
    end.

Declare Scope window_scope.
Delimit Scope window_scope with window.
Notation "x <- c ;; k" := (bind c (fun x => k))
  (at level 61, c at next level, right associativity) : window_scope.
Notation "c ;; k" := (bind c (fun _ => k))
  (at level 61, right associativity) : window_scope.
Local Open Scope window_scope.

Definition throw {A : Type} : M A := fun w => Throw w.

(** [try { body } catch (...) { handler }]: the handler runs in the state
    the exception left behind. *)
Definition try_catch (body handler : M unit) : M unit :=
  fun w =>
    match body w with
    | Ret a w' => Ret a w'
    | Throw w' => handler w'
    | Undefined => Undefined
    end.

Definition when (b : bool) (c : M unit) : M unit :=
  if b then c else ret tt.

Definition modify (f : AppWindow -> AppWindow) : M unit :=
  fun w => Ret tt (f w).

Definition read {A : Type} (f : AppWindow -> A) : M A :=
  fun w => Ret (f w) w.

Definition record (e : Effect) : M unit :=
  modify (fun w => with_effects (effects w ++ [e]) w).

(** [add_action(name, slot)]: a new action of that name, enabled. *)
Definition add_action (a : ActionId) (name : string) : M unit :=
  modify (with_action a (Some (mkAction name true))).

(** [m_xAction->set_enabled(b)]; the pointer must not be null. *)
Definition set_enabled (a : ActionId) (b : bool) : M unit :=
  fun w =>
    match action a w with
    | Some x => Ret tt (with_action a (Some (mkAction (a_name x) b)) w)
    | None => Undefined
    end.

(** [get_window()->set_cursor(c)].  The notifications arrive while the
    application runs, when the window is realized. *)
Definition set_cursor (c : Cursor) : M unit := modify (with_cursor c).

(** [*m_document]; the pointer must not be null. *)
Definition deref_document : M Document :=
  fun w =>
    match m_document w with
    | Some d => Ret d w
    | None => Undefined
    end.

(** Emission of a signal: the connected slots run one after the other. *)
Fixpoint emit {S : Type} (run : S -> M unit) (slots : list S) : M unit :=
  match slots with
  | [] => ret tt
  | s :: rest => run s ;; emit run rest
  end.

(** The lambda connected to [m_commandSlot.commandQueuedSignal]
    (window.cpp, lines 122 to 128). *)
Definition onCommandQueued : M unit :=
  set_enabled UndoA false ;;
  set_enabled RedoA false ;;
  set_cursor (NamedCursor "progress").

(** [AppWindow::onCommandExecuted] (window.cpp, lines 216 to 229). *)
Definition onCommandExecuted : M unit :=
  d <- deref_document ;;
  (if canUndo d then set_enabled UndoA true else set_enabled UndoA false) ;;
  d' <- deref_document ;;
  (if canRedo d' then set_enabled RedoA true else set_enabled RedoA false) ;;
  set_cursor DefaultCursor.

Definition run_executed_slot (s : ExecutedSlot) : M unit :=
  match s with OnCommandExecuted => onCommandExecuted end.

Definition run_queued_slot (s : QueuedSlot) : M unit :=
  match s with WindowQueuedHandler => onCommandQueued end.

(** The timeout started by the "saved" lambda: hide the notification and
    return false, which removes the timeout. *)
Definition onSavedTimeout : M unit :=
  fun w =>
    if m_connectionSaved w
    then Ret tt (with_connectionSaved false (with_revealerDone false w))
    else Ret tt w.

(** The lambda connected to [m_signalSaved]. *)
Definition onSaved : M unit :=
  c <- read m_connectionSaved ;;
  when c (modify (with_connectionSaved false)) ;;
  modify (with_revealerDone true) ;;
  modify (with_connectionSaved true).

Definition run_saved_slot (s : SavedSlot) : M unit :=
  match s with ShowSavedNotification => onSaved end.

(** [m_signalSaved.emit()]. *)
Definition emit_saved : M unit :=
  record SavedEmitted ;;
  slots <- read m_signalSaved ;;
  emit run_saved_slot slots.

(** The [commandExecuted] signal of the window's document fires: the
    notification is noted and the connected slots run. *)
Definition emit_commandExecuted : M unit :=
  d <- deref_document ;;
  record CompletionNotified ;;
  emit run_executed_slot (commandExecuted d).

(** Modelled from the spec: [CommandSlot::queueCommand].  Of the two
    policies the spec allows for a call while a command is in flight, this
    is the one that keeps the call: the command goes behind those already
    waiting (they run in enqueue order).  The "command queued"
    notification is raised before the call returns.  The call is noted
    among the effects. *)
Definition queueCommand (c : Closure) : M unit :=
  record CommandEnqueued ;;
  slot <- read m_commandSlot ;;
  modify (with_commandSlot
            (mkCommandSlot (pending slot ++ [c]) (commandQueuedSignal slot))) ;;
  emit run_queued_slot (commandQueuedSignal slot).

(** The run of an error dialog. *)
Definition error_dialog (message : string) : M unit :=
  record (ErrorDialog message).

(** [std::make_unique<Document>(path)]; whether the constructor raises is
    decided outside the window. *)
Definition make_Document (fault : OpenFault) (path : string) : M Document :=
  match fault with
  | DocumentCtorThrows => throw
  | _ => ret (newDocument path)
  end.

(** [m_editor.setDocument( *document)]; whether it raises is decided
    outside the window. *)
Definition editor_setDocument (fault : OpenFault) (d : Document) : M unit :=
  match fault with
  | SetDocumentThrows => throw
  | _ => modify (with_editor (Some (d_path d)))
  end.

(** [m_document->commandExecuted().connect(slot)]. *)
Definition connect_commandExecuted (s : ExecutedSlot) : M unit :=
  d <- deref_document ;;
  modify (with_document (Some (connectExecuted s d))).

(** [AppWindow::openDocument] (window.cpp, lines 43 to 60).  The editor
    is a descendant of the overlay exactly when it is the overlay's
    child. *)
Definition openDocument (fault : OpenFault) (file : File) : M unit :=
  document <- make_Document fault (get_path file) ;;
  editor_setDocument fault document ;;
  modify (with_document (Some document)) ;;
  child <- read m_overlay ;;
  when (match child with EditorWidget => false | _ => true end)
       (modify (with_overlay NoChild) ;;
        modify (with_overlay EditorWidget)) ;;
  modify (with_subtitle (get_basename file)) ;;
  set_enabled SaveA true ;;
  connect_commandExecuted OnCommandExecuted.

(** [AppWindow::addActions] (window.cpp, lines 62 to 72). *)
Definition addActions : M unit :=
  add_action OpenA "open-document" ;;
  add_action SaveA "save-document" ;;
  add_action UndoA "undo" ;;
  add_action RedoA "redo" ;;
  set_enabled SaveA false ;;
  set_enabled UndoA false ;;
  set_enabled RedoA false.

(** [AppWindow::setupWidgets], as far as the overlay's child goes. *)
Definition setupWidgets : M unit :=
  modify (with_overlay WelcomeScreen).

(** [AppWindow::setupSignalHandlers]: three connections. *)
Definition setupSignalHandlers : M unit :=
  modify (with_buttonCloseDone true) ;;
  modify (fun w => with_signalSaved (m_signalSaved w ++ [ShowSavedNotification]) w) ;;
  modify (fun w =>
    with_commandSlot
      (mkCommandSlot (pending (m_commandSlot w))
         (commandQueuedSignal (m_commandSlot w) ++ [WindowQueuedHandler])) w).

(** [AppWindow::loadCustomCSS]. *)
Definition loadCustomCSS : M unit := modify (with_css true).

(** The body of the constructor. *)
Definition construct : M unit :=
  addActions ;;
  setupWidgets ;;
  setupSignalHandlers ;;
  loadCustomCSS.

(** [m_document->saveDocument(file)]; whether writing the file raises is
    decided outside the window. *)
Definition saveDocument (throws : bool) (file : File) : M unit :=
  _ <- deref_document ;;
  if throws then throw else record (DocumentSaved (get_path file)).

(** [AppWindow::onSaveAction] (window.cpp, lines 154 to 175). *)
Definition onSaveAction (dialog : DialogRun) (throws : bool) : M unit :=
  let result := dlg_result dialog in
  when (Z.eqb result GTK_RESPONSE_ACCEPT)
       (try_catch
          (saveDocument throws (dlg_file dialog) ;;
           emit_saved)
          (error_dialog "The current document could not be saved")).

(** [AppWindow::onOpenAction] (window.cpp, lines 177 to 200). *)
Definition onOpenAction (dialog : DialogRun) (fault : OpenFault) : M unit :=
  let result := dlg_result dialog in
  when (Z.eqb result GTK_RESPONSE_ACCEPT)
       (try_catch
          (openDocument fault (dlg_file dialog))
          (error_dialog "The selected file could not be opened")) ;;
  set_enabled UndoA false ;;
  set_enabled RedoA false.

(** [AppWindow::onUndoAction] and [AppWindow::onRedoAction] (window.cpp,
    lines 202 to 214). *)
Definition onUndoAction : M unit := queueCommand UndoClosure.

Definition onRedoAction : M unit := queueCommand RedoClosure.

(** ** Execution of queued commands *)

(** Invocation of a queued closure.  The lambdas of the window capture
    [this] and look [m_document] up when they run. *)
Definition call (c : Closure) : M unit :=
  match c with
  | UndoClosure =>
      d <- deref_document ;;
      modify (with_document (Some (undoCommand d)))
  | RedoClosure =>
      d <- deref_document ;;
      modify (with_document (Some (redoCommand d)))
  | EditorClosure op fails =>
      d <- deref_document ;;
      if fails then throw
      else modify (with_document (Some (forwardCommand op d)))
  end.

(** Modelled from the spec: the background thread (its class is not part
    of the sources at hand) takes the oldest waiting command and runs it.
    After the run the document's "command executed" notification fires; a
    failure of the command is caught at this boundary, leaves the history
    as it was, and is turned into the same notification. *)
Definition executeNext : M unit :=
  slot <- read m_commandSlot ;;
  match pending slot with
  | [] => ret tt
  | c :: rest =>
      modify (with_commandSlot (mkCommandSlot rest (commandQueuedSignal slot))) ;;
      try_catch (call c) (ret tt) ;;
      emit_commandExecuted
  end.

(** ** Events of the running application *)

Inductive Event : Type :=
| ActivateOpen (dialog : DialogRun) (fault : OpenFault)
| ActivateSave (dialog : DialogRun) (throws : bool)
| ActivateUndo
| ActivateRedo
| CloseDoneClicked
| SavedTimeout
| CommandQueued
| CommandExecuted
| EditorQueues (op : Op) (fails : bool)
| BackgroundRuns.

(** The toolkit runs the handler of an action only while the action is
    enabled; the activation of a disabled action does nothing. *)
Definition activate (a : ActionId) (handler : M unit) : M unit :=
  fun w => if enabled a w then handler w else Ret tt w.

(** The lambda connected to [m_buttonCloseDone.signal_clicked()]. *)
Definition onCloseDoneClicked : M unit :=
  modify (with_revealerDone false).

(** What the window does on an event.  [CommandQueued] and
    [CommandExecuted] are the two notifications, delivered at any moment
    the collaborators choose; a document's notification needs a document.
    [EditorQueues] is the editor handing a command to the shared slot,
    which it can do once it is on display; [BackgroundRuns] is one step of
    the background thread. *)
Definition dispatch (e : Event) : M unit :=
  match e with
  | ActivateOpen dialog fault => activate OpenA (onOpenAction dialog fault)
  | ActivateSave dialog throws => activate SaveA (onSaveAction dialog throws)
  | ActivateUndo => activate UndoA onUndoAction
  | ActivateRedo => activate RedoA onRedoAction
  | CloseDoneClicked =>
      c <- read m_buttonCloseDone ;;
      when c onCloseDoneClicked
  | SavedTimeout => onSavedTimeout
  | CommandQueued =>
      slot <- read m_commandSlot ;;
      emit run_queued_slot (commandQueuedSignal slot)
  | CommandExecuted =>
      d <- read m_document ;;
      match d with
      | Some _ => emit_commandExecuted
      | None => ret tt
      end
  | EditorQueues op fails =>
      child <- read m_overlay ;;
      match child with
      | EditorWidget => queueCommand (EditorClosure op fails)
      | _ => ret tt
      end
  | BackgroundRuns => executeNext
  end.

Fixpoint run (es : list Event) : M unit :=
  match es with
  | [] => ret tt
  | e :: rest => dispatch e ;; run rest
  end.

(** A command slot nobody has used yet, and the run of the window's
    constructor on it. *)
Definition fresh_slot : CommandSlot := mkCommandSlot [] [].

Definition constructed : Outcome unit := construct (blank fresh_slot).

(** The events that deliver "command executed" to the window. *)
Definition is_executed (e : Event) : bool :=
  match e with
  | CommandExecuted | BackgroundRuns => true
  | _ => false
  end.

(** The bare notifications, which come from outside the modelled command
    slot and background thread. *)
Definition is_notification (e : Event) : bool :=
  match e with
  | CommandQueued | CommandExecuted => true
  | _ => false
  end.

(** ** Well-formed windows *)

(** The four action pointers are set (what [addActions] establishes). *)
Definition registered (w : AppWindow) : Prop :=
  m_openAction w <> None /\ m_saveAction w <> None /\
  m_undoAction w <> None /\ m_redoAction w <> None.

Definition disabled_undo_redo (w : AppWindow) : Prop :=
  enabled UndoA w = false /\ enabled RedoA w = false.

(** The state of affairs the constructor sets up and every event keeps:
    the actions exist, the window listens to the command slot, a document
    in place has the window as its only listener, and as long as there is
    no document nothing that needs one can be started. *)
Definition Inv (w : AppWindow) : Prop :=
  registered w /\
  commandQueuedSignal (m_commandSlot w) = [WindowQueuedHandler] /\
  match m_document w with
  | Some d => commandExecuted d = [OnCommandExecuted]
  | None =>
      enabled SaveA w = false /\ enabled UndoA w = false /\
      enabled RedoA w = false /\ m_overlay w <> EditorWidget /\
      pending (m_commandSlot w) = []
  end.

(** The window is idle when no command waits for the background thread. *)
Definition idle (w : AppWindow) : Prop := pending (m_commandSlot w) = [].

Fixpoint count_effect (p : Effect -> bool) (l : list Effect) : nat :=
  match l with
  | [] => 0
  | e :: rest => (if p e then 1 else 0) + count_effect p rest
  end.

Definition is_enqueue (e : Effect) : bool :=
  match e with CommandEnqueued => true | _ => false end.

Definition is_completion (e : Effect) : bool :=
  match e with CompletionNotified => true | _ => false end.

Definition enqueues (w : AppWindow) : nat := count_effect is_enqueue (effects w).

Definition completions (w : AppWindow) : nat :=
  count_effect is_completion (effects w).

Definition successful_open (e : Event) : bool :=
  match e with
  | ActivateOpen dialog NoFault => Z.eqb (dlg_result dialog) GTK_RESPONSE_ACCEPT
  | _ => false
  end.

(** Every call of [queueCommand] so far is matched by a completion
    notification or by a command still waiting. *)
Definition balanced (w : AppWindow) : Prop :=
  completions w + length (pending (m_commandSlot w)) = enqueues w.

(** An idle window shows the default cursor. *)
Definition calm (w : AppWindow) : Prop :=
  idle w -> window_cursor w = DefaultCursor.

(** In an idle window the history actions tell what the document can do. *)
Definition synced (w : AppWindow) : Prop :=
  idle w ->
  forall d, m_document w = Some d ->
    enabled UndoA w = canUndo d /\ enabled RedoA w = canRedo d.

(** Events other than an activation of "open" whose dialog is cancelled
    or whose file fails to open. *)
Definition no_failed_open (e : Event) : bool :=
  match e with
  | ActivateOpen _ _ => successful_open e
  | _ => true
  end.

(** The application from the construction of its window on. *)
Definition session (es : list Event) : Outcome unit :=
  (construct ;; run es) (blank fresh_slot).

(** The events in the course of which the window handles one of the two
    notifications: the bare notifications, a call of [queueCommand], which
    raises "command queued", and a step of the background thread, which
    ends in "command executed". *)
Definition handles_notification (e : Event) : bool :=
  match e with
  | CommandQueued | CommandExecuted => true
  | ActivateUndo | ActivateRedo | EditorQueues _ _ => true
  | BackgroundRuns => true
  | _ => false
  end.

(** What one event does to a well-formed window. *)
Definition step_ok (e : Event) (w w' : AppWindow) : Prop :=
  Inv w'
  /\ (enabled SaveA w' = true ->
        enabled SaveA w = true \/ successful_open e = true)
  /\ (is_executed e = false ->
        (enabled UndoA w' = true -> enabled UndoA w = true)
        /\ (enabled RedoA w' = true -> enabled RedoA w = true))
  /\ (is_notification e = false -> balanced w -> balanced w')
  /\ (is_notification e = false -> calm w -> calm w')
  /\ (is_notification e = false -> no_failed_open e = true ->
        synced w -> synced w')
  /\ (handles_notification e = false -> window_cursor w' = window_cursor w).

(** The statement that nothing but the two notifications moves the
    history actions or the cursor of a running application. *)
Definition driven_by_notifications_only : Prop :=
  forall es e w w',
    session es = Ret tt w ->
    dispatch e w = Ret tt w' ->
    handles_notification e = false ->
    enabled UndoA w' = enabled UndoA w
    /\ enabled RedoA w' = enabled RedoA w
    /\ window_cursor w' = window_cursor w.

(** Two windows that differ at most in the "Saved!" notification and in
    observations other than calls of [queueCommand] and completions. *)
Definition same_core (w w' : AppWindow) : Prop :=
  m_commandSlot w' = m_commandSlot w
  /\ m_document w' = m_document w
  /\ m_overlay w' = m_overlay w
  /\ m_openAction w' = m_openAction w
  /\ m_saveAction w' = m_saveAction w
  /\ m_undoAction w' = m_undoAction w
  /\ m_redoAction w' = m_redoAction w
  /\ window_cursor w' = window_cursor w
  /\ enqueues w' = enqueues w
  /\ completions w' = completions w.


(** The window as the constructor leaves it. *)
Definition window0 : AppWindow :=
  mkAppWindow (mkCommandSlot [] [WindowQueuedHandler]) None None
    WelcomeScreen ""
    (Some (mkAction "open-document" true))
    (Some (mkAction "save-document" false))
    (Some (mkAction "undo" false))
    (Some (mkAction "redo" false))
    [ShowSavedNotification] false false true DefaultCursor true [].

(** No event of the sequence is of the kind [p]. *)
Definition quiet (p : Event -> bool) (es : list Event) : bool :=
  forallb (fun e => negb (p e)) es.

(** Sample inputs. *)
Definition a_pdf : File := mkFile "/tmp/a.pdf" "a.pdf".
Definition b_pdf : File := mkFile "/tmp/b.pdf" "b.pdf".
Definition accepted (f : File) : DialogRun := mkDialogRun GTK_RESPONSE_ACCEPT f.
Definition cancelled : DialogRun := mkDialogRun (-6)%Z a_pdf.

(** A window with a document that has one entry to undo, both history
    actions enabled as the last completion left them. *)
Definition sample_window : AppWindow :=
  mkAppWindow (mkCommandSlot [] [WindowQueuedHandler])
    (Some (mkDocument "/tmp/a.pdf" [1] [2] [OnCommandExecuted]))
    (Some "/tmp/a.pdf") EditorWidget "a.pdf"
    (Some (mkAction "open-document" true))
    (Some (mkAction "save-document" true))
    (Some (mkAction "undo" true))
    (Some (mkAction "redo" true))
    [ShowSavedNotification] false false true DefaultCursor true [].

(** ** What the window shows *)

(** The file an event opens: the one chosen in an accepted dialog of
    "open" whose file loads; any other event opens nothing. *)
Definition opened_by (e : Event) (o : option File) : option File :=
  match e with
  | ActivateOpen dialog NoFault =>
      if Z.eqb (dlg_result dialog) GTK_RESPONSE_ACCEPT
      then Some (dlg_file dialog) else o
  | _ => o
  end.

(** The file opened last in a sequence of events, if any. *)
Definition last_opened_from (o : option File) (es : list Event) : option File :=
  fold_left (fun o e => opened_by e o) es o.

Definition last_opened (es : list Event) : option File :=
  last_opened_from None es.

(** The window presents the file [o]: without a file, the welcome screen
    under an empty subtitle with "save" disabled; with a file, the editor
    on a document made from the file's path, the file's base name as
    subtitle, and "save" enabled. *)
Definition shows (o : option File) (w : AppWindow) : Prop :=
  match o, m_document w with
  | None, None =>
      m_overlay w = WelcomeScreen /\ m_headerBar w = ""
      /\ enabled SaveA w = false
  | Some f, Some d =>
      d_path d = get_path f /\ m_headerBar w = get_basename f
      /\ m_overlay w = EditorWidget /\ enabled SaveA w = true
  | _, _ => False
  end.

(** The connections the constructor makes are in place once each, "open"
    is enabled, and a visible "Saved!" notification has its hiding
    timeout running. *)
Definition Wired (w : AppWindow) : Prop :=
  Inv w
  /\ m_signalSaved w = [ShowSavedNotification]
  /\ m_buttonCloseDone w = true
  /\ enabled OpenA w = true
  /\ (m_revealerDone w = true -> m_connectionSaved w = true).

(** ** The "Saved!" notification and its timeout, with time

    The lambdas of [setupSignalHandlers] for [m_signalSaved] and
    [m_buttonCloseDone] (window.cpp, lines 104 to 120), over the timeout
    sources of the main loop: a source has an identity and a time at
    which it is due; a connection refers to a source and is connected
    while the source exists; a source whose callback returns false is
    removed. *)
Module SavedNotice.

Record Timeout : Type := mkTimeout {
  t_id : nat;
  t_due : nat
}.

Record Notice : Type := mkNotice {
  reveal_child : bool;
  sources : list Timeout;
  connection : option nat;
  next_id : nat;
  clock : nat
}.

(** The interval passed to [Glib::signal_timeout().connect], in
    milliseconds. *)
Definition interval : nat := 5000.

Definition initial : Notice := mkNotice false [] None 0 0.

Definition is_source (id : nat) (t : Timeout) : bool := Nat.eqb (t_id t) id.

(** [m_connectionSaved.connected()]. *)
Definition connected (s : Notice) : bool :=
  match connection s with
  | Some id => existsb (is_source id) (sources s)
  | None => false
  end.

(** [m_connectionSaved.disconnect()]: the source is taken off the loop. *)
Definition disconnect (s : Notice) : Notice :=
  match connection s with
  | Some id =>
      mkNotice (reveal_child s)
        (filter (fun t => negb (is_source id t)) (sources s))
        (connection s) (next_id s) (clock s)
  | None => s
  end.

(** [m_revealerDone.set_reveal_child(b)]. *)
Definition set_reveal_child (b : bool) (s : Notice) : Notice :=
  mkNotice b (sources s) (connection s) (next_id s) (clock s).

(** [Glib::signal_timeout().connect(slot, ms)]: a new source, due [ms]
    from now; the connection to it is returned. *)
Definition signal_timeout_connect (ms : nat) (s : Notice) : nat * Notice :=
  (next_id s,
   mkNotice (reveal_child s)
     (sources s ++ [mkTimeout (next_id s) (clock s + ms)])
     (connection s) (S (next_id s)) (clock s)).

(** The lambda connected to [m_signalSaved]. *)
Definition onSaved (s : Notice) : Notice :=
  let s1 := if connected s then disconnect s else s in
  let s2 := set_reveal_child true s1 in
  let (c, s3) := signal_timeout_connect interval s2 in
  mkNotice (reveal_child s3) (sources s3) (Some c) (next_id s3) (clock s3).

(** The lambda given to the timeout: hide the notification, return
    false. *)
Definition onTimeout (s : Notice) : Notice := set_reveal_child false s.

(** The lambda connected to the close button of the notification. *)
Definition onCloseClicked (s : Notice) : Notice := set_reveal_child false s.

Definition is_due (now : nat) (t : Timeout) : bool := Nat.leb (t_due t) now.

(** The main loop after [dt] more milliseconds: the sources due by then
    have run their callback and are gone. *)
Definition elapse (dt : nat) (s : Notice) : Notice :=
  let now := clock s + dt in
  let fired := filter (is_due now) (sources s) in
  let s1 := fold_left (fun s _ => onTimeout s) fired s in
  mkNotice (reveal_child s1)
    (filter (fun t => negb (is_due now t)) (sources s1))
    (connection s1) (next_id s1) now.

Inductive Ev : Type :=
| Saved
| Elapse (dt : nat)
| CloseClicked.

Definition step (s : Notice) (e : Ev) : Notice :=
  match e with
  | Saved => onSaved s
  | Elapse dt => elapse dt s
  | CloseClicked => onCloseClicked s
  end.

Definition run (es : list Ev) : Notice := fold_left step es initial.

(** How long ago the last "saved" was emitted, if ever. *)
Definition age_step (a : option nat) (e : Ev) : option nat :=
  match e with
  | Saved => Some 0
  | Elapse dt => option_map (fun n => n + dt) a
  | CloseClicked => a
  end.

Definition age (es : list Ev) : option nat := fold_left age_step es None.

(** Was the close button clicked after the last "saved"? *)
Definition closed_step (c : bool) (e : Ev) : bool :=
  match e with
  | Saved => false
  | Elapse _ => c
  | CloseClicked => true
  end.

Definition closed (es : list Ev) : bool := fold_left closed_step es false.

(** The state of the notification [n] milliseconds after the last
    "saved" ([None]: never), the close button clicked since or not. *)
Definition tracks (a : option nat) (c : bool) (s : Notice) : Prop :=
  match a with
  | Some n =>
      if Nat.ltb n interval
      then exists id,
             sources s = [mkTimeout id (clock s + (interval - n))]
             /\ connection s = Some id
             /\ reveal_child s = negb c
      else sources s = [] /\ reveal_child s = false
  | None => sources s = [] /\ reveal_child s = false
  end.

End SavedNotice.

(** ** Proof tools *)

Ltac break_window w :=
  let slot := fresh "slot" in
  destruct w as [slot ? ? ? ? ? ? ? ? ? ? ? ? ? ? ?];
  destruct slot as [? ?].

Ltac some_actions :=
  repeat match goal with
  | H : registered _ |- _ => unfold registered in H; cbn in H; decompose [and] H; clear H
  | H : None <> None |- _ => exfalso; apply H; reflexivity
  | H : Some _ <> None |- _ => clear H
  | H : ?x <> None |- _ => is_var x; destruct x
  end.

(** A computation on a window whose members are known far enough returns
    what evaluation says. *)
Ltac returns_by_computation :=
  match goal with
  | |- exists w', ?c = Ret tt w' /\ _ =>
      let r := eval vm_compute in c in
      match r with
      | Ret tt ?w1 => exists w1; split; [vm_compute; reflexivity|]
      end
  end.

Lemma registered_sample : registered sample_window.
Proof. unfold registered; cbn; repeat split; discriminate. Qed.

Lemma Inv_sample : Inv sample_window.
Proof. split; [apply registered_sample | split; reflexivity]. Qed.

(** Emission of "command queued" to any number of connected window
    handlers: it returns, touches neither the document nor the waiting
    commands, and with at least one handler connected leaves undo and redo
    disabled under the progress cursor. *)
Lemma emit_queued_spec (slots : list QueuedSlot) :
  forall w, registered w ->
  exists w', emit run_queued_slot slots w = Ret tt w'
    /\ registered w'
    /\ m_document w' = m_document w
    /\ m_commandSlot w' = m_commandSlot w
    /\ m_overlay w' = m_overlay w
    /\ effects w' = effects w
    /\ enabled SaveA w' = enabled SaveA w
    /\ enabled OpenA w' = enabled OpenA w
    /\ (enabled UndoA w' = true -> enabled UndoA w = true)
    /\ (enabled RedoA w' = true -> enabled RedoA w = true)
    /\ (slots <> [] -> disabled_undo_redo w'
                       /\ window_cursor w' = NamedCursor "progress").
Proof.
  induction slots as [|s slots IH]; intros w Hr.
  - exists w. cbn. repeat split; try assumption; try apply Hr; try congruence.
  - destruct s.
    assert (Hstep : exists w1, onCommandQueued w = Ret tt w1
              /\ registered w1 /\ m_document w1 = m_document w
              /\ m_commandSlot w1 = m_commandSlot w
              /\ m_overlay w1 = m_overlay w
              /\ effects w1 = effects w
              /\ enabled SaveA w1 = enabled SaveA w
              /\ enabled OpenA w1 = enabled OpenA w
              /\ disabled_undo_redo w1
              /\ window_cursor w1 = NamedCursor "progress").
    { break_window w. some_actions. eexists. cbn.
      repeat split; discriminate. }
    destruct Hstep as (w1 & E1 & Hr1 & Hd1 & Hs1 & Ho1 & He1 & Hsv1 & Hop1 & [Hu1 Hre1] & Hc1).
    destruct (IH w1 Hr1) as (w2 & E2 & Hr2 & Hd2 & Hs2 & Ho2 & He2 & Hsv2 & Hop2 & Hu2 & Hre2 & Hne2).
    exists w2. cbn [emit run_queued_slot]. unfold bind. rewrite E1, E2.
    repeat split; try apply Hr2; try congruence.
    + intro H. apply Hu2 in H. congruence.
    + intro H. apply Hre2 in H. congruence.
    + destruct slots as [|s' slots'].
      * cbn in E2. inversion E2. subst w2. assumption.
      * apply Hne2. discriminate.
    + destruct slots as [|s' slots'].
      * cbn in E2. inversion E2. subst w2. assumption.
      * apply Hne2. discriminate.
    + destruct slots as [|s' slots'].
      * cbn in E2. inversion E2. subst w2. assumption.
      * apply Hne2. discriminate.
Qed.

(** What [onCommandExecuted] does to a window with a document. *)
Lemma onCommandExecuted_spec (w : AppWindow) (d : Document) :
  registered w -> m_document w = Some d ->
  exists w', onCommandExecuted w = Ret tt w'
    /\ enabled UndoA w' = canUndo d
    /\ enabled RedoA w' = canRedo d
    /\ window_cursor w' = DefaultCursor
    /\ m_document w' = Some d
    /\ registered w'
    /\ m_commandSlot w' = m_commandSlot w
    /\ m_overlay w' = m_overlay w
    /\ effects w' = effects w
    /\ enabled SaveA w' = enabled SaveA w
    /\ enabled OpenA w' = enabled OpenA w.
Proof.
  intros Hr Hd. break_window w. some_actions. cbn in Hd. subst.
  unfold onCommandExecuted, bind, deref_document. cbn.
  destruct (canUndo d); cbn; destruct (canRedo d); cbn;
    eexists; repeat split; discriminate.
Qed.

(** The emission of "command executed" by a document whose only listener
    is the window. *)
Lemma emit_commandExecuted_spec (w : AppWindow) (d : Document) :
  registered w -> m_document w = Some d ->
  commandExecuted d = [OnCommandExecuted] ->
  exists w', emit_commandExecuted w = Ret tt w'
    /\ enabled UndoA w' = canUndo d
    /\ enabled RedoA w' = canRedo d
    /\ window_cursor w' = DefaultCursor
    /\ m_document w' = Some d
    /\ registered w'
    /\ m_commandSlot w' = m_commandSlot w
    /\ m_overlay w' = m_overlay w
    /\ effects w' = effects w ++ [CompletionNotified]
    /\ enabled SaveA w' = enabled SaveA w
    /\ enabled OpenA w' = enabled OpenA w.
Proof.
  intros Hr Hd Hc.
  unfold emit_commandExecuted, bind, deref_document. rewrite Hd.
  unfold record, modify. rewrite Hc. cbn [emit run_executed_slot].
  set (w1 := with_effects _ w).
  assert (Hr1 : registered w1) by (break_window w; exact Hr).
  assert (Hd1 : m_document w1 = Some d) by (break_window w; exact Hd).
  destruct (onCommandExecuted_spec w1 d Hr1 Hd1)
    as (w2 & E & Hu & Hre & Hcu & Hd2 & Hr2 & Hs & Ho & He & Hsv & Hop).
  exists w2. unfold bind. rewrite E. unfold ret.
  repeat split; try assumption; try apply Hr2.
Qed.

(** Every call of [queueCommand] on a window with its actions returns,
    with the command behind those that waited and the document as it
    was. *)
Lemma queueCommand_spec (c : Closure) (w : AppWindow) :
  registered w ->
  exists w', queueCommand c w = Ret tt w'
    /\ pending (m_commandSlot w') = pending (m_commandSlot w) ++ [c]
    /\ commandQueuedSignal (m_commandSlot w')
       = commandQueuedSignal (m_commandSlot w)
    /\ m_document w' = m_document w
    /\ registered w'
    /\ m_overlay w' = m_overlay w
    /\ effects w' = effects w ++ [CommandEnqueued]
    /\ enabled SaveA w' = enabled SaveA w
    /\ enabled OpenA w' = enabled OpenA w
    /\ (enabled UndoA w' = true -> enabled UndoA w = true)
    /\ (enabled RedoA w' = true -> enabled RedoA w = true)
    /\ (commandQueuedSignal (m_commandSlot w) <> [] ->
        disabled_undo_redo w' /\ window_cursor w' = NamedCursor "progress").
Proof.
  intro Hr. unfold queueCommand, bind, record, modify, read.
  set (w1 := with_commandSlot _ _).
  assert (Hr1 : registered w1) by (break_window w; exact Hr).
  destruct (emit_queued_spec
              (commandQueuedSignal
                 (m_commandSlot (with_effects (effects w ++ [CommandEnqueued]) w)))
              w1 Hr1)
    as (w2 & E & Hr2 & Hd & Hs & Ho & He & Hsv & Hop & Hu & Hre & Hne).
  exists w2. rewrite E.
  repeat split; try apply Hr2;
    try (rewrite ?Hs, ?Hd, ?Ho, ?He, ?Hsv, ?Hop; reflexivity);
    try assumption; try (apply Hne; assumption).
Qed.

(** ** The two notification handlers *)

(** C1.  When "command queued" fires, the window's handler disables the
    undo action and the redo action and sets the progress cursor; it
    neither touches the document nor the waiting commands.  Raised from
    within [queueCommand], it has done so while the command handed in is
    still waiting behind the others, not yet run. *)
Theorem C1_queued_handler_enters_busy (w : AppWindow) (Hr : registered w) :
  (exists w', onCommandQueued w = Ret tt w'
     /\ enabled UndoA w' = false
     /\ enabled RedoA w' = false
     /\ window_cursor w' = NamedCursor "progress"
     /\ m_document w' = m_document w
     /\ m_commandSlot w' = m_commandSlot w)
  /\ (forall c, commandQueuedSignal (m_commandSlot w) = [WindowQueuedHandler] ->
      exists w', queueCommand c w = Ret tt w'
        /\ enabled UndoA w' = false
        /\ enabled RedoA w' = false
        /\ window_cursor w' = NamedCursor "progress"
        /\ m_document w' = m_document w
        /\ pending (m_commandSlot w') = pending (m_commandSlot w) ++ [c]).
Proof.
  split.
  - break_window w. some_actions. eexists. cbn. repeat split.
  - intros c Hq. break_window w. some_actions. cbn in Hq. subst.
    eexists. cbn. repeat split.
Qed.

Lemma C1_queued_handler_enters_busy_witness :
  registered sample_window /\
  exists w', onCommandQueued sample_window = Ret tt w'
     /\ enabled UndoA w' = false
     /\ enabled RedoA w' = false
     /\ window_cursor w' = NamedCursor "progress"
     /\ m_document w' = m_document sample_window
     /\ m_commandSlot w' = m_commandSlot sample_window.
Proof.
  split.
  - apply registered_sample.
  - apply (proj1 (C1_queued_handler_enters_busy sample_window registered_sample)).
Defined.

(** C2.  When the document's "command executed" fires, the window's
    handler enables the undo action exactly if [canUndo] holds of the
    document, enables the redo action exactly if [canRedo] holds, and
    restores the default cursor.  This is what the handler does, and what
    the emission of the signal does on a document the window is connected
    to. *)
Theorem C2_executed_handler_rederives (w : AppWindow) (d : Document)
  (Hr : registered w) (Hd : m_document w = Some d) :
  (exists w', onCommandExecuted w = Ret tt w'
     /\ enabled UndoA w' = canUndo d
     /\ enabled RedoA w' = canRedo d
     /\ window_cursor w' = DefaultCursor
     /\ m_document w' = Some d)
  /\ (commandExecuted d = [OnCommandExecuted] ->
      exists w', dispatch CommandExecuted w = Ret tt w'
        /\ enabled UndoA w' = canUndo d
        /\ enabled RedoA w' = canRedo d
        /\ window_cursor w' = DefaultCursor
        /\ m_document w' = Some d).
Proof.
  split.
  - destruct (onCommandExecuted_spec w d Hr Hd)
      as (w' & E & Hu & Hre & Hc & Hd' & _).
    exists w'. repeat split; assumption.
  - intro Hc. unfold dispatch, bind, read. rewrite Hd.
    destruct (emit_commandExecuted_spec w d Hr Hd Hc)
      as (w' & E & Hu & Hre & Hcu & Hd' & _).
    exists w'. repeat split; assumption.
Qed.

Lemma C2_executed_handler_rederives_witness :
  registered sample_window /\
  m_document sample_window
    = Some (mkDocument "/tmp/a.pdf" [1] [2] [OnCommandExecuted]) /\
  exists w', onCommandExecuted sample_window = Ret tt w'
     /\ enabled UndoA w' = true
     /\ enabled RedoA w' = true
     /\ window_cursor w' = DefaultCursor.
Proof.
  split; [apply registered_sample | split; [reflexivity|]].
  destruct (C2_executed_handler_rederives sample_window
              (mkDocument "/tmp/a.pdf" [1] [2] [OnCommandExecuted])
              registered_sample eq_refl) as [(w' & E & Hu & Hre & Hc & _) _].
  exists w'. repeat split; assumption.
Defined.

(** ** The action handlers *)

(** C5.  The undo handler hands [queueCommand] the closure that calls
    [undoCommand] on the window's document, the redo handler the one that
    calls [redoCommand]; the handlers themselves leave the document as it
    is, the command only waits in the slot when they return. *)
Theorem C5_undo_redo_are_enqueued (w : AppWindow) (Hr : registered w) :
  onUndoAction = queueCommand UndoClosure
  /\ onRedoAction = queueCommand RedoClosure
  /\ (exists w', onUndoAction w = Ret tt w'
        /\ pending (m_commandSlot w') = pending (m_commandSlot w) ++ [UndoClosure]
        /\ m_document w' = m_document w)
  /\ (exists w', onRedoAction w = Ret tt w'
        /\ pending (m_commandSlot w') = pending (m_commandSlot w) ++ [RedoClosure]
        /\ m_document w' = m_document w)
  /\ (forall v d, m_document v = Some d ->
        call UndoClosure v = Ret tt (with_document (Some (undoCommand d)) v)
        /\ call RedoClosure v = Ret tt (with_document (Some (redoCommand d)) v)).
Proof.
  split; [reflexivity|]. split; [reflexivity|].
  split; [|split].
  - destruct (queueCommand_spec UndoClosure w Hr) as (w' & E & Hp & _ & Hd & _).
    exists w'. repeat split; assumption.
  - destruct (queueCommand_spec RedoClosure w Hr) as (w' & E & Hp & _ & Hd & _).
    exists w'. repeat split; assumption.
  - intros v d Hd. unfold call, bind, deref_document. rewrite Hd.
    split; reflexivity.
Qed.

Lemma C5_undo_redo_are_enqueued_witness :
  registered sample_window /\
  exists w', onUndoAction sample_window = Ret tt w'
    /\ pending (m_commandSlot w') = [UndoClosure]
    /\ m_document w' = m_document sample_window.
Proof.
  split; [apply registered_sample|].
  exact (proj1 (proj2 (proj2
           (C5_undo_redo_are_enqueued sample_window registered_sample)))).
Defined.

(** C6.  Opening a file puts a new document made from the file's path in
    place of whatever document there was; the new document has an empty
    history and the window's [onCommandExecuted] as the listener of its
    "command executed" signal, so that whatever history it has later, the
    signal makes the window derive the undo and redo availability from
    it. *)
Theorem C6_open_replaces_document (w : AppWindow) (file : File)
  (Hr : registered w) :
  exists w' d',
    openDocument NoFault file w = Ret tt w'
    /\ m_document w' = Some d'
    /\ d' = mkDocument (get_path file) [] [] [OnCommandExecuted]
    /\ canUndo d' = false /\ canRedo d' = false
    /\ enabled SaveA w' = true
    /\ forall us rs,
         let d2 := mkDocument (get_path file) us rs (commandExecuted d') in
         exists w2,
           dispatch CommandExecuted (with_document (Some d2) w') = Ret tt w2
           /\ enabled UndoA w2 = canUndo d2
           /\ enabled RedoA w2 = canRedo d2
           /\ window_cursor w2 = DefaultCursor.
Proof.
  break_window w. some_actions.
  eexists. eexists. split.
  - unfold openDocument, bind. cbn.
    destruct m_overlay0; cbn; reflexivity.
  - split; [destruct m_overlay0; reflexivity|].
    split; [reflexivity|]. split; [reflexivity|]. split; [reflexivity|].
    split; [destruct m_overlay0; reflexivity|].
    intros us rs d2.
    match goal with |- context [with_document (Some d2) ?x] =>
      destruct (emit_commandExecuted_spec (with_document (Some d2) x) d2)
        as (w2 & E & Hu & Hre & Hcu & _)
    end.
    + destruct m_overlay0; cbn; repeat split; discriminate.
    + destruct m_overlay0; reflexivity.
    + reflexivity.
    + exists w2. split; [exact E | repeat split; assumption].
Qed.

Lemma C6_open_replaces_document_witness :
  registered sample_window /\
  exists w', openDocument NoFault b_pdf sample_window = Ret tt w'
    /\ m_document w' = Some (mkDocument "/tmp/b.pdf" [] [] [OnCommandExecuted]).
Proof.
  split; [apply registered_sample|].
  destruct (C6_open_replaces_document sample_window b_pdf registered_sample)
    as (w' & d' & E & Hd & Hd' & _).
  exists w'. split; [exact E|]. rewrite Hd, Hd'. reflexivity.
Defined.

(** C8.  [onOpenAction] always returns, and when it does the undo action
    and the redo action are disabled: after a document was opened, after
    the dialog was cancelled, and after opening raised, in which case the
    error dialog has run and the document in place is the one from
    before.  What history the document in place has plays no part. *)
Theorem C8_open_action_disables_undo_redo
  (w : AppWindow) (dialog : DialogRun) (fault : OpenFault)
  (Hr : registered w) :
  exists w', onOpenAction dialog fault w = Ret tt w'
    /\ enabled UndoA w' = false
    /\ enabled RedoA w' = false
    /\ (dlg_result dialog <> GTK_RESPONSE_ACCEPT ->
          m_document w' = m_document w /\ effects w' = effects w)
    /\ (dlg_result dialog = GTK_RESPONSE_ACCEPT -> fault <> NoFault ->
          m_document w' = m_document w
          /\ effects w'
             = effects w ++ [ErrorDialog "The selected file could not be opened"])
    /\ (dlg_result dialog = GTK_RESPONSE_ACCEPT -> fault = NoFault ->
          m_document w'
          = Some (mkDocument (get_path (dlg_file dialog)) [] []
                             [OnCommandExecuted])).
Proof.
  break_window w. some_actions.
  unfold onOpenAction, bind, when.
  destruct (Z.eqb_spec (dlg_result dialog) GTK_RESPONSE_ACCEPT) as [Ha|Hn].
  - destruct fault; try destruct m_overlay0; returns_by_computation;
      repeat split; intros;
      first [reflexivity | contradiction | discriminate].
  - returns_by_computation. repeat split; intros;
      first [reflexivity | contradiction].
Qed.

Lemma C8_open_action_disables_undo_redo_witness :
  registered sample_window /\
  enabled UndoA sample_window = true /\
  exists w', onOpenAction cancelled NoFault sample_window = Ret tt w'
    /\ enabled UndoA w' = false
    /\ enabled RedoA w' = false.
Proof.
  split; [apply registered_sample|]. split; [reflexivity|].
  destruct (C8_open_action_disables_undo_redo sample_window cancelled NoFault
              registered_sample) as (w' & E & Hu & Hre & _).
  exists w'. repeat split; assumption.
Defined.

(** The emission of "saved" changes only the "Saved!" notification. *)
Lemma emit_saved_slots_core (slots : list SavedSlot) :
  forall w, exists w', emit run_saved_slot slots w = Ret tt w'
    /\ same_core w w' /\ effects w' = effects w.
Proof.
  induction slots as [|s slots IH]; intro w.
  - exists w. split; [reflexivity|]. unfold same_core. repeat split.
  - destruct s. cbn [emit run_saved_slot]. unfold bind at 1.
    assert (H1 : exists w1, onSaved w = Ret tt w1
              /\ same_core w w1 /\ effects w1 = effects w).
    { unfold onSaved, bind, read, when, modify, ret.
      destruct (m_connectionSaved w); eexists; repeat split. }
    destruct H1 as (w1 & E1 & Hc1 & He1). rewrite E1.
    destruct (IH w1) as (w2 & E2 & Hc2 & He2).
    exists w2. split; [exact E2|]. split; [|congruence].
    unfold same_core, enqueues, completions in *.
    decompose [and] Hc1. decompose [and] Hc2.
    repeat split; congruence.
Qed.

(** C9.  [onSaveAction] always returns normally.  It emits "saved" if and
    only if the dialog was accepted and [saveDocument] did not raise; when
    [saveDocument] raises, nothing is emitted and the error dialog runs
    instead. *)
Theorem C9_save_action_emits_saved
  (w : AppWindow) (dialog : DialogRun) (throws : bool)
  (Hd : dlg_result dialog = GTK_RESPONSE_ACCEPT -> m_document w <> None) :
  exists w' new,
    onSaveAction dialog throws w = Ret tt w'
    /\ effects w' = effects w ++ new
    /\ (In SavedEmitted new <->
          dlg_result dialog = GTK_RESPONSE_ACCEPT /\ throws = false)
    /\ (dlg_result dialog = GTK_RESPONSE_ACCEPT -> throws = true ->
          new = [ErrorDialog "The current document could not be saved"])
    /\ (dlg_result dialog = GTK_RESPONSE_ACCEPT -> throws = false ->
          new = [DocumentSaved (get_path (dlg_file dialog)); SavedEmitted])
    /\ (dlg_result dialog <> GTK_RESPONSE_ACCEPT -> w' = w).
Proof.
  unfold onSaveAction, when.
  destruct (Z.eqb_spec (dlg_result dialog) GTK_RESPONSE_ACCEPT) as [Ha|Hn].
  - specialize (Hd Ha). destruct (m_document w) as [d|] eqn:Ed; [|congruence].
    cbv beta delta [try_catch bind saveDocument deref_document].
    rewrite Ed. cbv iota beta.
    destruct throws.
    + unfold throw, error_dialog, record, modify.
      eexists. eexists. split; [reflexivity|]. cbn [effects with_effects].
      split; [reflexivity|]. split; [split|].
      * intros [H|[]]. discriminate H.
      * intros [_ H]. discriminate H.
      * split; [reflexivity|]. split; [discriminate|]. contradiction.
    + cbv beta iota delta [record modify emit_saved bind read].
      match goal with |- context [emit run_saved_slot ?l ?x] =>
        destruct (emit_saved_slots_core l x) as (w2 & E & _ & He)
      end.
      exists w2. eexists. rewrite E. split; [reflexivity|].
      split.
      { rewrite He. cbn [effects with_effects]. rewrite <- app_assoc.
        reflexivity. }
      split; [split|].
      * intros _. split; [assumption | reflexivity].
      * intros _. right. left. reflexivity.
      * split; [discriminate|]. split; [reflexivity|]. contradiction.
  - exists w, []. unfold ret. split; [reflexivity|].
    split; [symmetry; apply app_nil_r|].
    split; [split|].
    + intros [].
    + intros [H _]. contradiction.
    + split; [contradiction|]. split; [contradiction|]. reflexivity.
Qed.

Lemma C9_save_action_emits_saved_witness :
  (dlg_result (accepted b_pdf) = GTK_RESPONSE_ACCEPT ->
   m_document sample_window <> None) /\
  exists w' new,
    onSaveAction (accepted b_pdf) true sample_window = Ret tt w'
    /\ effects w' = effects sample_window ++ new
    /\ new = [ErrorDialog "The current document could not be saved"].
Proof.
  assert (H : dlg_result (accepted b_pdf) = GTK_RESPONSE_ACCEPT ->
              m_document sample_window <> None) by (intros _; discriminate).
  split; [exact H|].
  destruct (C9_save_action_emits_saved sample_window (accepted b_pdf) true H)
    as (w' & new & E & He & _ & Hn & _).
  exists w', new. repeat split; try assumption. apply Hn; reflexivity.
Defined.

(** ** One event at a time *)

Lemma count_effect_app (p : Effect -> bool) (l1 l2 : list Effect) :
  count_effect p (l1 ++ l2) = count_effect p l1 + count_effect p l2.
Proof.
  induction l1 as [|e l1 IH]; cbn; [reflexivity|].
  rewrite IH. lia.
Qed.

Ltac evaluate_handler :=
  match goal with
  | |- exists w', ?c = Ret tt w' /\ _ =>
      let r := eval cbv -[app count_effect length] in c in
      lazymatch r with
      | Ret tt ?w1 => exists w1; split; [vm_compute; reflexivity|]
      end
  end.

Ltac known_window w HI :=
  break_window w;
  destruct HI as (Hreg & Hq & Hdoc);
  some_actions; cbn in Hq; cbn in Hdoc; subst;
  match type of Hdoc with
  | context [match ?od with _ => _ end] => destruct od as [[? ? ? ?]|]
  end;
  cbn in Hdoc;
  [ subst | destruct Hdoc as (Hsv & Hun & Hre & Hov & Hpe); subst ].

Ltac settle :=
  unfold step_ok, Inv, registered, balanced, calm, synced, idle,
    completions, enqueues;
  cbn -[app count_effect length];
  repeat split; intros;
  try first [ reflexivity | discriminate | assumption | contradiction
            | (left; assumption) | (right; reflexivity) ];
  try solve [match goal with
             | H : _ ++ [_] = [] |- _ =>
                 apply app_eq_nil in H; destruct H; discriminate
             end];
  try (rewrite ?count_effect_app, ?length_app in *; cbn in *; lia);
  try solve [auto];
  try solve [match goal with
             | H : Some _ = Some _ |- _ =>
                 inversion H; subst; clear H; cbn; first [reflexivity | auto]
             end];
  try solve [match goal with
             | H : _ -> forall d, _ -> _ /\ _ |- _ => apply H; auto
             end].

Lemma dispatch_open_ok (dialog : DialogRun) (fault : OpenFault) (w : AppWindow) :
  Inv w ->
  exists w', dispatch (ActivateOpen dialog fault) w = Ret tt w'
             /\ step_ok (ActivateOpen dialog fault) w w'.
Proof.
  intro HI. destruct dialog as [res file].
  unfold step_ok, no_failed_open, successful_open, dispatch, onOpenAction.
  cbn [dlg_result dlg_file].
  known_window w HI;
    match goal with |- context [{| m_openAction := Some ?a |}] => destruct a as [? []] end;
    destruct (Z.eqb res GTK_RESPONSE_ACCEPT) eqn:Eacc;
    destruct fault;
    match goal with |- context [{| m_overlay := ?o |}] => destruct o end;
    evaluate_handler; settle.
Qed.

Lemma step_ok_same_core (e : Event) (w w' : AppWindow) :
  Inv w -> same_core w w' -> step_ok e w w'.
Proof.
  intros HI HS.
  destruct w as [slot doc ed ov hb oa sa ua ra ss cs rd bc cur css eff].
  destruct w' as [slot' doc' ed' ov' hb' oa' sa' ua' ra' ss' cs' rd' bc' cur' css' eff'].
  unfold same_core, enqueues, completions in HS. cbn in HS.
  destruct HS as (-> & -> & -> & -> & -> & -> & -> & -> & Hen & Hco).
  unfold step_ok, Inv, registered, balanced, calm, synced, idle,
    enqueues, completions, enabled in *.
  cbn in *.
  split; [exact HI|].
  split; [intro H; left; exact H|].
  split; [intros _; split; intro H; exact H|].
  split; [intros _ H; lia|].
  split; [intros _ H; exact H|].
  split; [intros _ _ H; exact H|].
  intros _; reflexivity.
Qed.

Lemma onSaveAction_core (dialog : DialogRun) (throws : bool) (w : AppWindow) :
  m_document w <> None ->
  exists w', onSaveAction dialog throws w = Ret tt w' /\ same_core w w'.
Proof.
  intro Hd. unfold onSaveAction, when.
  destruct (Z.eqb (dlg_result dialog) GTK_RESPONSE_ACCEPT).
  - destruct (m_document w) as [d|] eqn:Ed; [clear Hd|congruence].
    cbv beta delta [try_catch bind saveDocument deref_document].
    rewrite Ed. cbv iota beta.
    destruct throws.
    + unfold throw, error_dialog, record, modify.
      eexists. split; [reflexivity|].
      unfold same_core, enqueues, completions. cbn.
      rewrite !count_effect_app. cbn. repeat split; lia.
    + cbv beta iota delta [record modify emit_saved bind read].
      match goal with |- context [emit run_saved_slot ?l ?x] =>
        destruct (emit_saved_slots_core l x) as (w2 & E & Hc & He)
      end.
      exists w2. rewrite E. split; [reflexivity|].
      unfold same_core, enqueues, completions in *. rewrite He.
      cbn in *. decompose [and] Hc.
      rewrite !count_effect_app. cbn.
      repeat split; try assumption; lia.
  - exists w. split; [reflexivity|]. unfold same_core. repeat split.
Qed.

Lemma dispatch_save_ok (dialog : DialogRun) (throws : bool) (w : AppWindow) :
  Inv w ->
  exists w', dispatch (ActivateSave dialog throws) w = Ret tt w'
             /\ step_ok (ActivateSave dialog throws) w w'.
Proof.
  intro HI. unfold dispatch, activate.
  destruct (enabled SaveA w) eqn:Es.
  - assert (Hd : m_document w <> None).
    { destruct HI as (_ & _ & Hdoc). destruct (m_document w); [discriminate|].
      destruct Hdoc as (Hsv & _). congruence. }
    destruct (onSaveAction_core dialog throws w Hd) as (w' & E & Hc).
    exists w'. split; [exact E|]. apply step_ok_same_core; assumption.
  - exists w. split; [reflexivity|]. apply step_ok_same_core; [assumption|].
    unfold same_core. repeat split.
Qed.

Lemma dispatch_notification_widgets_ok (e : Event) (w : AppWindow) :
  e = CloseDoneClicked \/ e = SavedTimeout ->
  Inv w ->
  exists w', dispatch e w = Ret tt w' /\ step_ok e w w'.
Proof.
  intros [-> | ->] HI.
  - unfold dispatch, bind, read, when, onCloseDoneClicked, modify, ret.
    destruct (m_buttonCloseDone w); eexists; (split; [reflexivity|]);
      apply step_ok_same_core; try assumption; unfold same_core; repeat split.
  - unfold dispatch, onSavedTimeout.
    destruct (m_connectionSaved w); eexists; (split; [reflexivity|]);
      apply step_ok_same_core; try assumption; unfold same_core; repeat split.
Qed.

Lemma dispatch_queue_ok (e : Event) (w : AppWindow) :
  (e = ActivateUndo \/ e = ActivateRedo \/ e = CommandQueued
   \/ exists op fails, e = EditorQueues op fails) ->
  Inv w ->
  exists w', dispatch e w = Ret tt w' /\ step_ok e w w'.
Proof.
  intros [-> | [-> | [-> | (op & fails & ->)]]] HI.
  - known_window w HI;
      match goal with |- context [{| m_undoAction := Some ?a |}] =>
        destruct a as [? []] end;
      try discriminate; evaluate_handler; settle.
  - known_window w HI;
      match goal with |- context [{| m_redoAction := Some ?a |}] =>
        destruct a as [? []] end;
      try discriminate; evaluate_handler; settle.
  - known_window w HI; evaluate_handler; settle.
  - known_window w HI;
      match goal with |- context [{| m_overlay := ?o |}] => destruct o end;
      try (exfalso; apply Hov; reflexivity);
      evaluate_handler; settle.
Qed.

Lemma dispatch_executed_ok (e : Event) (w : AppWindow) :
  e = CommandExecuted \/ e = BackgroundRuns ->
  Inv w ->
  exists w', dispatch e w = Ret tt w' /\ step_ok e w w'.
Proof.
  intros [-> | ->] HI.
  - known_window w HI;
      try match goal with
          |- context [{| undoStack := ?u; redoStack := ?r |}] =>
            is_var u; is_var r; destruct u, r
          end;
      evaluate_handler; settle.
  - known_window w HI;
      try match goal with
          |- context [{| pending := ?p |}] =>
            is_var p; destruct p as [|[| |? []] ?]
          end;
      try match goal with
          |- context [{| undoStack := ?u; redoStack := ?r |}] =>
            is_var u; is_var r;
            destruct u as [|? [|? ?]], r as [|? [|? ?]]
          end;
      evaluate_handler; settle.
Qed.

(** Every event on a well-formed window is handled to the end and leaves a
    well-formed window. *)
Lemma dispatch_ok (e : Event) (w : AppWindow) :
  Inv w -> exists w', dispatch e w = Ret tt w' /\ step_ok e w w'.
Proof.
  intro HI. destruct e.
  - apply dispatch_open_ok; assumption.
  - apply dispatch_save_ok; assumption.
  - apply dispatch_queue_ok; auto.
  - apply dispatch_queue_ok; auto.
  - apply dispatch_notification_widgets_ok; auto.
  - apply dispatch_notification_widgets_ok; auto.
  - apply dispatch_queue_ok; auto.
  - apply dispatch_executed_ok; auto.
  - apply dispatch_queue_ok; [|assumption].
    right. right. right. exists op, fails. reflexivity.
  - apply dispatch_executed_ok; auto.
Qed.

(** One step of the background thread on a waiting command, whether the
    command succeeds or fails: the command leaves the slot, one completion
    notification is delivered, and the window is back to the default
    cursor. *)
Lemma executeNext_spec (w : AppWindow) (c : Closure) (rest : list Closure) :
  Inv w -> pending (m_commandSlot w) = c :: rest ->
  exists w', dispatch BackgroundRuns w = Ret tt w'
    /\ pending (m_commandSlot w') = rest
    /\ completions w' = S (completions w)
    /\ enqueues w' = enqueues w
    /\ window_cursor w' = DefaultCursor.
Proof.
  intros HI Hp.
  known_window w HI; cbn in Hp; try discriminate; subst;
    destruct c as [| |? []];
    match goal with
    |- context [{| undoStack := ?u; redoStack := ?r |}] =>
      is_var u; is_var r;
      destruct u as [|? [|? ?]], r as [|? [|? ?]]
    end;
    evaluate_handler;
    unfold completions, enqueues; cbn -[app count_effect];
    rewrite ?count_effect_app; cbn; repeat split; lia.
Qed.

(** ** The window after construction *)

Lemma constructed_window0 : constructed = Ret tt window0.
Proof. vm_compute. reflexivity. Qed.

Lemma Inv_window0 : Inv window0.
Proof.
  unfold Inv, registered. cbn.
  repeat split; try discriminate.
Qed.

Lemma session_unfold (es : list Event) : session es = run es window0.
Proof.
  unfold session, bind. fold constructed. rewrite constructed_window0.
  reflexivity.
Qed.

(** ** Sequences of events *)

Lemma run_ok (es : list Event) :
  forall w, Inv w ->
  exists w', run es w = Ret tt w'
    /\ Inv w'
    /\ (enabled SaveA w' = true ->
          enabled SaveA w = true \/ existsb successful_open es = true)
    /\ (quiet is_executed es = true ->
          (enabled UndoA w' = true -> enabled UndoA w = true)
          /\ (enabled RedoA w' = true -> enabled RedoA w = true))
    /\ (quiet is_notification es = true ->
          (balanced w -> balanced w')
          /\ (calm w -> calm w')
          /\ (forallb no_failed_open es = true -> synced w -> synced w')).
Proof.
  induction es as [|e es IH]; intros w HI.
  - exists w. split; [reflexivity|]. split; [exact HI|].
    split; [intro H; left; exact H|].
    split; intros _.
    + split; intro H; exact H.
    + split; [intro H; exact H|]. split; [intro H; exact H|].
      intros _ H; exact H.
  - destruct (dispatch_ok e w HI)
      as (w1 & E1 & HI1 & Hsv1 & Hex1 & Hba1 & Hca1 & Hsy1 & _).
    destruct (IH w1 HI1) as (w2 & E2 & HI2 & Hsv2 & Hex2 & Hno2).
    exists w2. cbn [run]. unfold bind. rewrite E1.
    split; [exact E2|]. split; [exact HI2|].
    split; [|split].
    + intro H. cbn [existsb]. apply Hsv2 in H. destruct H as [H|H].
      * apply Hsv1 in H. destruct H as [H|H]; [left; exact H|].
        right. rewrite H. reflexivity.
      * right. rewrite H. apply orb_true_r.
    + unfold quiet. cbn [forallb]. intro H.
      apply andb_true_iff in H. destruct H as [He Hes].
      apply negb_true_iff in He.
      destruct (Hex1 He) as [Hu1 Hr1]. destruct (Hex2 Hes) as [Hu2 Hr2].
      split; auto.
    + unfold quiet. cbn [forallb]. intro H.
      apply andb_true_iff in H. destruct H as [He Hes].
      apply negb_true_iff in He.
      destruct (Hno2 Hes) as (Hba2 & Hca2 & Hsy2).
      split; [auto|]. split; [auto|].
      intro H. apply andb_true_iff in H. destruct H as [Hf Hfs]. auto.
Qed.

(** Whatever events arrive after the construction, they are all handled
    and leave a well-formed window. *)
Lemma session_Inv (es : list Event) :
  exists w, session es = Ret tt w /\ Inv w.
Proof.
  rewrite session_unfold.
  destruct (run_ok es window0 Inv_window0) as (w & E & HI & _).
  exists w. split; assumption.
Qed.

(** ** The window over its lifetime *)

(** C10.  The constructor returns a window whose four actions are
    registered, with save, undo and redo disabled (open is enabled) and no
    document.  From then on, whatever events arrive, they are all handled,
    and the save action is enabled only if among them there was an
    activation of "open" whose dialog was accepted and whose file
    opened. *)
Theorem C10_actions_at_construction :
  (exists w0, constructed = Ret tt w0
     /\ registered w0
     /\ enabled OpenA w0 = true
     /\ enabled SaveA w0 = false
     /\ enabled UndoA w0 = false
     /\ enabled RedoA w0 = false
     /\ m_document w0 = None)
  /\ (forall es, exists w, session es = Ret tt w
        /\ (enabled SaveA w = true -> existsb successful_open es = true)).
Proof.
  split.
  - exists window0. split; [apply constructed_window0|].
    split; [apply Inv_window0|]. repeat split.
  - intro es. rewrite session_unfold.
    destruct (run_ok es window0 Inv_window0) as (w & E & _ & Hsv & _).
    exists w. split; [exact E|].
    intro H. apply Hsv in H. destruct H as [H|H]; [discriminate H|exact H].
Qed.

(** C3, as amended.  Undo and redo become enabled only in the course of an
    event that delivers "command executed", and the cursor changes only in
    the course of an event that delivers one of the two notifications;
    every other event, the activation of "open" included, leaves undo and
    redo disabled or disables them.  So from the handling of "command
    queued" on, whatever events arrive before the next "command executed"
    is handled, they are all handled and the undo and redo actions are
    disabled after each of them. *)
Theorem C3_busy_until_executed (w : AppWindow) (HI : Inv w) :
  (forall e, exists w', dispatch e w = Ret tt w'
      /\ (is_executed e = false ->
            (enabled UndoA w' = true -> enabled UndoA w = true)
            /\ (enabled RedoA w' = true -> enabled RedoA w = true))
      /\ (handles_notification e = false ->
            window_cursor w' = window_cursor w))
  /\ (forall es, quiet is_executed es = true ->
        exists w', run (CommandQueued :: es) w = Ret tt w'
          /\ enabled UndoA w' = false
          /\ enabled RedoA w' = false).
Proof.
  split.
  - intro e. destruct (dispatch_ok e w HI)
      as (w' & E & _ & _ & Hex & _ & _ & _ & Hcu).
    exists w'. repeat split; try assumption; apply Hex; assumption.
  - intros es Hq.
    assert (Hfirst : exists w1, dispatch CommandQueued w = Ret tt w1
              /\ Inv w1 /\ enabled UndoA w1 = false
              /\ enabled RedoA w1 = false).
    { destruct (dispatch_ok CommandQueued w HI) as (w1 & E1 & HI1 & _).
      exists w1. split; [exact E1|]. split; [exact HI1|].
      destruct HI as (Hr & Hqs & _).
      unfold dispatch, bind, read in E1. rewrite Hqs in E1.
      destruct (emit_queued_spec [WindowQueuedHandler] w Hr)
        as (w1' & E1' & _ & _ & _ & _ & _ & _ & _ & _ & _ & Hdis).
      rewrite E1' in E1. inversion E1. subst w1'.
      destruct Hdis as [[Hu Hre] _]; [discriminate|]. split; assumption. }
    destruct Hfirst as (w1 & E1 & HI1 & Hu1 & Hr1).
    destruct (run_ok es w1 HI1) as (w2 & E2 & _ & _ & Hex & _).
    exists w2. cbn [run]. unfold bind. rewrite E1.
    split; [exact E2|].
    destruct (Hex Hq) as [Hu2 Hr2].
    split.
    + destruct (enabled UndoA w2); [|reflexivity].
      rewrite <- Hu1. symmetry. apply Hu2. reflexivity.
    + destruct (enabled RedoA w2); [|reflexivity].
      rewrite <- Hr1. symmetry. apply Hr2. reflexivity.
Qed.

Lemma C3_busy_until_executed_witness :
  Inv sample_window /\
  quiet is_executed
    [ActivateOpen (accepted b_pdf) NoFault; ActivateUndo;
     ActivateSave (accepted a_pdf) false; EditorQueues 7 false] = true /\
  exists w',
    run [CommandQueued; ActivateOpen (accepted b_pdf) NoFault; ActivateUndo;
         ActivateSave (accepted a_pdf) false; EditorQueues 7 false]
        sample_window = Ret tt w'
    /\ enabled UndoA w' = false
    /\ enabled RedoA w' = false.
Proof.
  split; [apply Inv_sample|]. split; [reflexivity|].
  apply (proj2 (C3_busy_until_executed sample_window Inv_sample)).
  reflexivity.
Defined.

(** C3, as it was stated, fails: in a window whose document has an entry
    to undo and whose undo action is enabled, the activation of "open"
    with a file that opens disables the undo action, although the event
    delivers neither notification. *)
Lemma C3_open_is_a_third_driver :
  (exists w w',
     session [ActivateOpen (accepted a_pdf) NoFault; EditorQueues 1 false;
              BackgroundRuns] = Ret tt w
     /\ handles_notification (ActivateOpen (accepted b_pdf) NoFault) = false
     /\ dispatch (ActivateOpen (accepted b_pdf) NoFault) w = Ret tt w'
     /\ enabled UndoA w = true
     /\ enabled UndoA w' = false)
  /\ ~ driven_by_notifications_only.
Proof.
  assert (H : exists w w',
     session [ActivateOpen (accepted a_pdf) NoFault; EditorQueues 1 false;
              BackgroundRuns] = Ret tt w
     /\ handles_notification (ActivateOpen (accepted b_pdf) NoFault) = false
     /\ dispatch (ActivateOpen (accepted b_pdf) NoFault) w = Ret tt w'
     /\ enabled UndoA w = true
     /\ enabled UndoA w' = false).
  { eexists. eexists. split; [vm_compute; reflexivity|].
    split; [reflexivity|]. split; [vm_compute; reflexivity|].
    split; reflexivity. }
  split; [exact H|].
  destruct H as (w & w' & Es & Hn & Ed & Hu & Hu').
  intro Hclaim.
  destruct (Hclaim _ _ _ _ Es Ed Hn) as (Hsame & _).
  rewrite Hu, Hu' in Hsame. discriminate Hsame.
Qed.

(** C4, at the input where the code departs from it.  A file is opened,
    the editor's command runs to completion, and undo is enabled as the
    document says.  Then "open" is activated again and the dialog is
    cancelled, or the chosen file fails to load: the window is idle under
    the default cursor, the document is the one from before and can still
    undo, and the undo action is disabled. *)
Theorem C4_desync_after_failed_open :
  (exists w d,
     session [ActivateOpen (accepted a_pdf) NoFault; EditorQueues 1 false;
              BackgroundRuns; ActivateOpen cancelled NoFault] = Ret tt w
     /\ idle w
     /\ window_cursor w = DefaultCursor
     /\ m_document w = Some d
     /\ canUndo d = true
     /\ enabled UndoA w = false)
  /\ (exists w d,
     session [ActivateOpen (accepted a_pdf) NoFault; EditorQueues 1 false;
              BackgroundRuns;
              ActivateOpen (accepted b_pdf) DocumentCtorThrows] = Ret tt w
     /\ idle w
     /\ window_cursor w = DefaultCursor
     /\ m_document w = Some d
     /\ d_path d = get_path a_pdf
     /\ canUndo d = true
     /\ enabled UndoA w = false)
  /\ (exists w d,
     session [ActivateOpen (accepted a_pdf) NoFault; EditorQueues 1 false;
              BackgroundRuns] = Ret tt w
     /\ idle w
     /\ m_document w = Some d
     /\ canUndo d = true
     /\ enabled UndoA w = true).
Proof.
  split; [|split].
  - eexists. eexists. split; [vm_compute; reflexivity|].
    repeat split.
  - eexists. eexists. split; [vm_compute; reflexivity|].
    repeat split.
  - eexists. eexists. split; [vm_compute; reflexivity|].
    repeat split.
Qed.

(** Apart from that, the claim of C4 holds: as long as no dialog of "open"
    is cancelled and no file fails to open, and the notifications come
    from the command slot and the background thread, every idle window
    shows for undo and redo what its document can do. *)
Lemma idle_window_reflects_document (es : list Event) :
  quiet is_notification es = true ->
  forallb no_failed_open es = true ->
  exists w, session es = Ret tt w
    /\ (idle w -> forall d, m_document w = Some d ->
          enabled UndoA w = canUndo d /\ enabled RedoA w = canRedo d).
Proof.
  intros Hq Hf. rewrite session_unfold.
  destruct (run_ok es window0 Inv_window0) as (w & E & _ & _ & _ & Hno).
  destruct (Hno Hq) as (_ & _ & Hsy).
  exists w. split; [exact E|].
  apply (Hsy Hf). intros _ d Hd. discriminate Hd.
Qed.

(** ** Completion of queued commands *)

Lemma drain_ok (n : nat) :
  forall w, Inv w -> length (pending (m_commandSlot w)) = n ->
  balanced w -> calm w ->
  exists w', run (repeat BackgroundRuns n) w = Ret tt w'
    /\ Inv w'
    /\ idle w'
    /\ enqueues w' = enqueues w
    /\ completions w' = completions w + n
    /\ window_cursor w' = DefaultCursor.
Proof.
  induction n as [|n IH]; intros w HI Hlen Hb Hc.
  - exists w. split; [reflexivity|]. split; [exact HI|].
    assert (Hidle : idle w).
    { unfold idle. destruct (pending (m_commandSlot w)); [reflexivity|].
      discriminate Hlen. }
    split; [exact Hidle|]. split; [reflexivity|].
    split; [lia|]. apply Hc. exact Hidle.
  - destruct (pending (m_commandSlot w)) as [|c rest] eqn:Ep;
      [discriminate Hlen|].
    destruct (executeNext_spec w c rest HI Ep)
      as (w1 & E1 & Hp1 & Hco1 & Hen1 & Hcu1).
    destruct (dispatch_ok BackgroundRuns w HI)
      as (w1' & E1' & HI1 & _ & _ & Hba1 & Hca1 & _).
    rewrite E1 in E1'. inversion E1'. subst w1'.
    assert (Hlen1 : length (pending (m_commandSlot w1)) = n).
    { rewrite Hp1. cbn in Hlen. lia. }
    destruct (IH w1 HI1 Hlen1 (Hba1 eq_refl Hb) (Hca1 eq_refl Hc))
      as (w2 & E2 & HI2 & Hid2 & Hen2 & Hco2 & Hcu2).
    exists w2. cbn [repeat run]. unfold bind. rewrite E1.
    split; [exact E2|]. split; [exact HI2|]. split; [exact Hid2|].
    split; [congruence|]. split; [lia|]. exact Hcu2.
Qed.

(** C7.  However calls of [queueCommand] (from the undo and redo actions
    and from the editor, with commands that succeed or fail) interleave
    with the user's other actions and with steps of the background thread,
    every call is matched by one completion notification or by one command
    still waiting; a step of the background thread on a waiting command
    delivers exactly one completion notification, failing command or not;
    and once the background thread has taken the waiting commands, there
    are as many completion notifications as there were calls, no command
    waits, and the window shows the default cursor. *)
Theorem C7_one_completion_per_enqueue (es : list Event)
  (Hq : quiet is_notification es = true) :
  exists w1, session es = Ret tt w1
    /\ completions w1 + length (pending (m_commandSlot w1)) = enqueues w1
    /\ (forall c rest, pending (m_commandSlot w1) = c :: rest ->
          exists w', dispatch BackgroundRuns w1 = Ret tt w'
            /\ pending (m_commandSlot w') = rest
            /\ completions w' = S (completions w1)
            /\ enqueues w' = enqueues w1
            /\ window_cursor w' = DefaultCursor)
    /\ exists w2,
         run (repeat BackgroundRuns (length (pending (m_commandSlot w1)))) w1
           = Ret tt w2
         /\ pending (m_commandSlot w2) = []
         /\ enqueues w2 = enqueues w1
         /\ completions w2 = enqueues w1
         /\ window_cursor w2 = DefaultCursor.
Proof.
  rewrite session_unfold.
  destruct (run_ok es window0 Inv_window0) as (w1 & E & HI1 & _ & _ & Hno).
  destruct (Hno Hq) as (Hba & Hca & _).
  assert (Hb1 : balanced w1) by (apply Hba; reflexivity).
  assert (Hc1 : calm w1) by (apply Hca; intros _; reflexivity).
  exists w1. split; [exact E|]. split; [exact Hb1|].
  split.
  - intros c rest Hp. apply (executeNext_spec w1 c rest HI1 Hp).
  - destruct (drain_ok _ w1 HI1 eq_refl Hb1 Hc1)
      as (w2 & E2 & _ & Hid & Hen & Hco & Hcu).
    exists w2. split; [exact E2|]. split; [exact Hid|].
    split; [exact Hen|]. split; [|exact Hcu].
    unfold balanced in Hb1. lia.
Qed.

Lemma C7_one_completion_per_enqueue_witness :
  quiet is_notification
    [ActivateOpen (accepted a_pdf) NoFault; EditorQueues 1 false;
     EditorQueues 2 true; BackgroundRuns; ActivateUndo] = true /\
  exists w1,
    session [ActivateOpen (accepted a_pdf) NoFault; EditorQueues 1 false;
             EditorQueues 2 true; BackgroundRuns; ActivateUndo] = Ret tt w1
    /\ completions w1 + length (pending (m_commandSlot w1)) = enqueues w1.
Proof.
  split; [reflexivity|].
  destruct (C7_one_completion_per_enqueue
              [ActivateOpen (accepted a_pdf) NoFault; EditorQueues 1 false;
               EditorQueues 2 true; BackgroundRuns; ActivateUndo] eq_refl)
    as (w1 & E & Hb & _).
  exists w1. split; assumption.
Defined.

(** ** Further properties of the window *)

Ltac evaluate_to E :=
  match goal with
  | |- exists w', ?c = Ret tt w' /\ _ =>
      let r := eval cbv -[app count_effect length] in c in
      lazymatch r with
      | Ret tt ?w1 =>
          assert (E : c = Ret tt w1) by (vm_compute; reflexivity);
          exists w1; split; [exact E|]
      end
  end.

Ltac wired_window w HW :=
  break_window w;
  destruct HW as ((Hreg & Hq & Hdoc) & Hss & Hbc & Hop & Hrv);
  some_actions; cbn in Hq, Hss, Hbc, Hop, Hrv, Hdoc; subst;
  match goal with
  | H : a_enabled ?a = true |- _ => destruct a as [? ?]; cbn in H; subst
  end;
  match type of Hdoc with
  | context [match ?od with _ => _ end] => destruct od as [[? ? ? ?]|]
  end;
  cbn in Hdoc;
  [ subst | destruct Hdoc as (Hsv & Hun & Hre & Hov & Hpe); subst ].

Ltac presented o HS :=
  unfold shows in HS; cbn in HS; destruct o as [[? ?]|];
  try contradiction;
  decompose [and] HS; try clear HS;
  cbn in *; subst.

Ltac settle_wired :=
  unfold Wired, Inv, registered, shows, opened_by;
  cbn -[app count_effect length];
  repeat split; intros;
  try first [ reflexivity | discriminate | assumption | contradiction ];
  try solve [auto].

Ltac all_flags :=
  repeat match goal with a : Action |- _ => destruct a as [? []] end;
  repeat match goal with
         | b : bool |- _ => is_var b; destruct b
         end;
  cbn in *; try discriminate;
  try match goal with
      | H : true = true -> false = true |- _ =>
          specialize (H eq_refl); discriminate H
      end.

Lemma dispatch_wired (e : Event) (w : AppWindow) (o : option File) :
  Wired w -> shows o w ->
  exists w', dispatch e w = Ret tt w'
    /\ Wired w' /\ shows (opened_by e o) w'.
Proof.
  intros HW HS. destruct e.
  - destruct dialog as [res file].
    wired_window w HW; presented o HS;
      unfold dispatch, onOpenAction, opened_by; cbn [dlg_result dlg_file];
      destruct (Z.eqb res GTK_RESPONSE_ACCEPT) eqn:Eacc;
      destruct fault;
      evaluate_to E; settle_wired.
  - destruct dialog as [res file].
    wired_window w HW; presented o HS; all_flags;
      unfold dispatch, onSaveAction; cbn [dlg_result dlg_file];
      destruct (Z.eqb res GTK_RESPONSE_ACCEPT) eqn:Eacc;
      evaluate_to E; settle_wired.
  - wired_window w HW; presented o HS; all_flags;
      evaluate_to E; settle_wired.
  - wired_window w HW; presented o HS; all_flags;
      evaluate_to E; settle_wired.
  - wired_window w HW; presented o HS; all_flags;
      evaluate_to E; settle_wired.
  - wired_window w HW; presented o HS; all_flags;
      evaluate_to E; settle_wired.
  - wired_window w HW; presented o HS; all_flags;
      evaluate_to E; settle_wired.
  - wired_window w HW; presented o HS; all_flags;
      try match goal with
          |- context [{| undoStack := ?u; redoStack := ?r |}] =>
            is_var u; is_var r; destruct u, r
          end;
      evaluate_to E; settle_wired.
  - wired_window w HW; presented o HS; all_flags;
      evaluate_to E; settle_wired.
  - wired_window w HW; presented o HS; all_flags;
      try match goal with
          |- context [{| pending := ?p |}] =>
            is_var p; destruct p as [|[| |? []] ?]
          end;
      try match goal with
          |- context [{| undoStack := ?u; redoStack := ?r |}] =>
            is_var u; is_var r;
            destruct u as [|? [|? ?]], r as [|? [|? ?]]
          end;
      evaluate_to E; settle_wired.
Qed.

Lemma Wired_window0 : Wired window0.
Proof.
  split; [apply Inv_window0|]. cbn. repeat split; try reflexivity.
  discriminate.
Qed.

Lemma run_wired (es : list Event) :
  forall w o, Wired w -> shows o w ->
  exists w', run es w = Ret tt w'
    /\ Wired w' /\ shows (last_opened_from o es) w'.
Proof.
  induction es as [|e es IH]; intros w o HW HS.
  - exists w. split; [reflexivity|]. split; assumption.
  - destruct (dispatch_wired e w o HW HS) as (w1 & E1 & HW1 & HS1).
    destruct (IH w1 _ HW1 HS1) as (w2 & E2 & HW2 & HS2).
    exists w2. cbn [run]. unfold bind. rewrite E1.
    split; [exact E2|]. split; [exact HW2|]. exact HS2.
Qed.

Lemma session_wired (es : list Event) :
  exists w, session es = Ret tt w /\ Wired w /\ shows (last_opened es) w.
Proof.
  rewrite session_unfold. apply run_wired.
  - apply Wired_window0.
  - cbn. repeat split.
Qed.

Lemma last_opened_from_none (es : list Event) :
  forall o, last_opened_from o es = None <->
            o = None /\ existsb successful_open es = false.
Proof.
  induction es as [|e es IH]; intro o; cbn [last_opened_from fold_left existsb].
  - split; [intro H; split; [exact H | reflexivity] | intros [H _]; exact H].
  - fold (last_opened_from (opened_by e o) es). rewrite IH.
    rewrite orb_false_iff.
    destruct e; cbn [opened_by successful_open]; try solve [intuition auto].
    destruct fault; try solve [intuition auto].
    destruct (Z.eqb (dlg_result dialog) GTK_RESPONSE_ACCEPT).
    + split; [intros [H _]; discriminate H | intros [_ [H _]]; discriminate H].
    + intuition auto.
Qed.

(** X1.  No sequence of events brings the window to dereference a null
    [m_document] or a null action pointer, or lets an exception escape a
    handler: every session is handled to the end.  The handlers do rely
    on it: run on a window without a document, [onCommandExecuted] and an
    accepted [onSaveAction] dereference the null pointer. *)
Theorem X1_sessions_never_go_wrong :
  (forall es, exists w, session es = Ret tt w)
  /\ (forall w, m_document w = None -> onCommandExecuted w = Undefined)
  /\ (forall w dialog throws,
        m_document w = None ->
        dlg_result dialog = GTK_RESPONSE_ACCEPT ->
        onSaveAction dialog throws w = Undefined).
Proof.
  split; [|split].
  - intro es. destruct (session_wired es) as (w & E & _). exists w. exact E.
  - intros w Hd. unfold onCommandExecuted, bind, deref_document.
    rewrite Hd. reflexivity.
  - intros w dialog throws Hd Ha. unfold onSaveAction, when.
    rewrite Ha. cbn [Z.eqb GTK_RESPONSE_ACCEPT Pos.eqb].
    cbv beta delta [try_catch bind saveDocument deref_document].
    rewrite Hd. reflexivity.
Qed.

(** X2.  Connections never pile up: however many files are opened and
    whatever else happens, the window is connected exactly once to the
    command slot's "command queued" signal and exactly once to its own
    "saved" signal, and the document in place has the window's
    [onCommandExecuted] as its one and only listener. *)
Theorem X2_connections_do_not_accumulate (es : list Event) :
  exists w, session es = Ret tt w
    /\ commandQueuedSignal (m_commandSlot w) = [WindowQueuedHandler]
    /\ m_signalSaved w = [ShowSavedNotification]
    /\ (forall d, m_document w = Some d ->
          commandExecuted d = [OnCommandExecuted]).
Proof.
  destruct (session_wired es) as (w & E & ((_ & Hq & Hdoc) & Hss & _) & _).
  exists w. repeat split; try assumption.
  intros d Hd. rewrite Hd in Hdoc. exact Hdoc.
Qed.

(** X3.  The "open-document" action is never disabled: in every session,
    also while a command is in flight, another file can be opened. *)
Theorem X3_open_is_always_enabled (es : list Event) :
  exists w, session es = Ret tt w /\ enabled OpenA w = true.
Proof.
  destruct (session_wired es) as (w & E & (_ & _ & _ & Hop & _) & _).
  exists w. split; assumption.
Qed.

(** X4.  The window presents the file opened last.  Before any file was
    opened there is no document and the welcome screen is up under an
    empty subtitle; afterwards the editor is up, the document is the one
    made from the path of the file opened last, and the subtitle is that
    file's base name.  Cancelled dialogs and files that fail to open in
    between change none of this. *)
Theorem X4_window_presents_last_opened_file (es : list Event) :
  exists w, session es = Ret tt w
    /\ match last_opened es with
       | None =>
           m_document w = None /\ m_overlay w = WelcomeScreen
           /\ m_headerBar w = ""
       | Some f =>
           exists d, m_document w = Some d
             /\ d_path d = get_path f
             /\ m_headerBar w = get_basename f
             /\ m_overlay w = EditorWidget
       end.
Proof.
  destruct (session_wired es) as (w & E & _ & HS).
  exists w. split; [exact E|].
  unfold shows in HS.
  destruct (last_opened es) as [f|], (m_document w) as [d|];
    try contradiction.
  - exists d. destruct HS as (Hp & Hh & Ho & _). repeat split; assumption.
  - destruct HS as (Ho & Hh & _). repeat split; assumption.
Qed.

(** X5.  The save action is enabled exactly in the sessions in which a
    file was opened: once enabled by a successful open it is never
    disabled again, and nothing else enables it. *)
Theorem X5_save_enabled_iff_opened (es : list Event) :
  exists w, session es = Ret tt w
    /\ (enabled SaveA w = true <-> existsb successful_open es = true)
    /\ (enabled SaveA w = true <-> m_document w <> None).
Proof.
  destruct (session_wired es) as (w & E & _ & HS).
  exists w. split; [exact E|].
  unfold shows in HS.
  destruct (last_opened es) as [f|] eqn:El, (m_document w) as [d|];
    try contradiction.
  - destruct HS as (_ & _ & _ & Hs).
    assert (Hex : existsb successful_open es = true).
    { destruct (existsb successful_open es) eqn:Ex; [reflexivity|].
      assert (Hn : last_opened es = None)
        by (apply last_opened_from_none; split; [reflexivity | exact Ex]).
      rewrite Hn in El. discriminate El. }
    split; split; intros _; try assumption. discriminate.
  - destruct HS as (_ & _ & Hs).
    apply last_opened_from_none in El. destruct El as [_ Ex].
    rewrite Hs, Ex. split; split; intro H; try discriminate H.
    exfalso. apply H. reflexivity.
Qed.

(** X6.  Whenever the "Saved!" notification is visible, the timeout that
    hides it is connected: the notification cannot stay up for good. *)
Theorem X6_visible_notice_has_timeout (es : list Event) :
  exists w, session es = Ret tt w
    /\ (m_revealerDone w = true -> m_connectionSaved w = true).
Proof.
  destruct (session_wired es) as (w & E & (_ & _ & _ & _ & Hrv) & _).
  exists w. split; assumption.
Qed.

(** ** Laws of the handlers *)

Ltac explicit_window w :=
  break_window w;
  repeat match goal with
         | o : option Action |- _ => destruct o as [[? ?]|]
         | o : option Document |- _ => destruct o as [[? [|? ?] [|? ?] ?]|]
         end.

(** X7.  The completion handler wipes out what the queued handler did,
    and both handlers can run twice in a row to the effect of once:
    "command queued" followed by "command executed" leaves the window as
    "command executed" alone does, on every window. *)
Theorem X7_completion_absorbs_busy (w : AppWindow) :
  (onCommandQueued ;; onCommandExecuted) w = onCommandExecuted w
  /\ (onCommandQueued ;; onCommandQueued) w = onCommandQueued w
  /\ (onCommandExecuted ;; onCommandExecuted) w = onCommandExecuted w.
Proof.
  explicit_window w; repeat split; vm_compute; reflexivity.
Qed.

(** X8.  Busy and back: on a window that shows for undo and redo what its
    document can do, under the default cursor, the completion handler
    changes nothing, and so "command queued" followed by "command
    executed" with the history untouched gives back the very window it
    started from. *)
Theorem X8_busy_round_trip (w : AppWindow) (d : Document)
  (Hr : registered w) (Hd : m_document w = Some d)
  (Hu : enabled UndoA w = canUndo d) (Hre : enabled RedoA w = canRedo d)
  (Hc : window_cursor w = DefaultCursor) :
  onCommandExecuted w = Ret tt w
  /\ (onCommandQueued ;; onCommandExecuted) w = Ret tt w.
Proof.
  break_window w. some_actions. cbn in Hd, Hu, Hre, Hc. subst.
  destruct d as [p [|? ?] [|? ?] ls];
    repeat match goal with a : Action |- _ => destruct a as [? ?] end;
    cbn in Hu, Hre; subst;
    split; vm_compute; reflexivity.
Qed.

Lemma X8_busy_round_trip_witness :
  registered sample_window /\
  (onCommandQueued ;; onCommandExecuted) sample_window = Ret tt sample_window.
Proof.
  split; [apply registered_sample|].
  apply (X8_busy_round_trip sample_window
           (mkDocument "/tmp/a.pdf" [1] [2] [OnCommandExecuted])
           registered_sample eq_refl eq_refl eq_refl eq_refl).
Defined.

(** X9.  An open that does not go through, because the dialog is cancelled
    or because opening raises, leaves the document in place, the subtitle,
    the overlay's child, the open and save actions, the command slot with
    its waiting commands, the cursor and the "Saved!" notification as they
    were. *)
Theorem X9_failed_open_keeps_the_window
  (w : AppWindow) (dialog : DialogRun) (fault : OpenFault)
  (Hr : registered w)
  (Hf : dlg_result dialog <> GTK_RESPONSE_ACCEPT \/ fault <> NoFault) :
  exists w', onOpenAction dialog fault w = Ret tt w'
    /\ m_document w' = m_document w
    /\ m_headerBar w' = m_headerBar w
    /\ m_overlay w' = m_overlay w
    /\ m_openAction w' = m_openAction w
    /\ m_saveAction w' = m_saveAction w
    /\ m_commandSlot w' = m_commandSlot w
    /\ window_cursor w' = window_cursor w
    /\ m_revealerDone w' = m_revealerDone w
    /\ m_connectionSaved w' = m_connectionSaved w.
Proof.
  break_window w. some_actions.
  unfold onOpenAction, bind, when.
  destruct (Z.eqb_spec (dlg_result dialog) GTK_RESPONSE_ACCEPT) as [Ha|Hn].
  - destruct Hf as [Hf|Hf]; [contradiction|].
    destruct fault; try (exfalso; apply Hf; reflexivity);
      returns_by_computation; repeat split.
  - returns_by_computation. repeat split.
Qed.

Lemma X9_failed_open_keeps_the_window_witness :
  registered sample_window /\
  (dlg_result (accepted b_pdf) <> GTK_RESPONSE_ACCEPT
   \/ DocumentCtorThrows <> NoFault) /\
  exists w',
    onOpenAction (accepted b_pdf) DocumentCtorThrows sample_window = Ret tt w'
    /\ m_document w' = m_document sample_window
    /\ m_headerBar w' = "a.pdf".
Proof.
  assert (Hf : dlg_result (accepted b_pdf) <> GTK_RESPONSE_ACCEPT
               \/ DocumentCtorThrows <> NoFault) by (right; discriminate).
  split; [apply registered_sample|]. split; [exact Hf|].
  destruct (X9_failed_open_keeps_the_window sample_window (accepted b_pdf)
              DocumentCtorThrows registered_sample Hf)
    as (w' & E & Hd & Hh & _).
  exists w'. repeat split; assumption.
Defined.

(** X10.  The last open wins: opening a file after an earlier open, or
    after a cancelled dialog, gives the window that opening the file alone
    gives; nothing of the earlier document, its history or its listeners
    is left. *)
Theorem X10_last_open_wins
  (w : AppWindow) (first second : DialogRun) (fault : OpenFault)
  (H1 : dlg_result first <> GTK_RESPONSE_ACCEPT \/ fault = NoFault)
  (H2 : dlg_result second = GTK_RESPONSE_ACCEPT) :
  (onOpenAction first fault ;; onOpenAction second NoFault) w
  = onOpenAction second NoFault w.
Proof.
  destruct second as [res2 file2]. cbn in H2. subst res2.
  destruct first as [res1 file1]. cbn in H1.
  unfold bind at 1. unfold onOpenAction at 1.
  cbn [dlg_result dlg_file]. unfold when.
  destruct (Z.eqb_spec res1 GTK_RESPONSE_ACCEPT) as [Ha|Hn].
  - destruct H1 as [H1|H1]; [contradiction|]. subst fault.
    explicit_window w;
      match goal with
      | |- context [{| m_overlay := ?o |}] => destruct o
      end; vm_compute; reflexivity.
  - explicit_window w;
      match goal with
      | |- context [{| m_overlay := ?o |}] => destruct o
      end; vm_compute; reflexivity.
Qed.

Lemma X10_last_open_wins_witness :
  (dlg_result (accepted a_pdf) <> GTK_RESPONSE_ACCEPT \/ NoFault = NoFault) /\
  dlg_result (accepted b_pdf) = GTK_RESPONSE_ACCEPT /\
  (onOpenAction (accepted a_pdf) NoFault ;;
   onOpenAction (accepted b_pdf) NoFault) window0
  = onOpenAction (accepted b_pdf) NoFault window0.
Proof.
  split; [right; reflexivity|]. split; [reflexivity|].
  apply (X10_last_open_wins window0 (accepted a_pdf) (accepted b_pdf) NoFault).
  - right. reflexivity.
  - reflexivity.
Defined.

(** X16.  Opening never touches the command machinery: on every path of
    [onOpenAction], a file opened, the dialog cancelled or opening failed,
    the commands waiting in the slot keep waiting and the cursor stays as
    it is, so a window that is busy stays busy until the completion
    arrives. *)
Theorem X16_open_leaves_commands_and_cursor
  (w : AppWindow) (dialog : DialogRun) (fault : OpenFault)
  (Hr : registered w) :
  exists w', onOpenAction dialog fault w = Ret tt w'
    /\ m_commandSlot w' = m_commandSlot w
    /\ window_cursor w' = window_cursor w
    /\ m_openAction w' = m_openAction w
    /\ m_revealerDone w' = m_revealerDone w
    /\ m_connectionSaved w' = m_connectionSaved w.
Proof.
  break_window w. some_actions.
  unfold onOpenAction, bind, when.
  destruct (Z.eqb (dlg_result dialog) GTK_RESPONSE_ACCEPT).
  - destruct fault;
      try match goal with
          | |- context [{| m_overlay := ?o |}] => destruct o
          end;
      returns_by_computation; repeat split.
  - returns_by_computation. repeat split.
Qed.

Lemma X16_open_leaves_commands_and_cursor_witness :
  registered sample_window /\
  exists w', onOpenAction (accepted b_pdf) NoFault sample_window = Ret tt w'
    /\ m_commandSlot w' = m_commandSlot sample_window
    /\ window_cursor w' = window_cursor sample_window.
Proof.
  split; [apply registered_sample|].
  destruct (X16_open_leaves_commands_and_cursor sample_window (accepted b_pdf)
              NoFault registered_sample) as (w' & E & Hs & Hc & _).
  exists w'. repeat split; assumption.
Defined.

(** X11.  The constructor can be given any command slot: commands that
    wait in it keep waiting, connections others made to its "command
    queued" signal stay, and the window's own handler is connected once,
    behind them.  The window comes out with its four actions registered,
    "open" enabled and the other three disabled, and without a
    document. *)
Theorem X11_constructor_on_any_slot (slot : CommandSlot) :
  exists w0, construct (blank slot) = Ret tt w0
    /\ pending (m_commandSlot w0) = pending slot
    /\ commandQueuedSignal (m_commandSlot w0)
       = commandQueuedSignal slot ++ [WindowQueuedHandler]
    /\ registered w0
    /\ enabled OpenA w0 = true
    /\ enabled SaveA w0 = false
    /\ enabled UndoA w0 = false
    /\ enabled RedoA w0 = false
    /\ m_document w0 = None
    /\ m_overlay w0 = WelcomeScreen
    /\ effects w0 = [].
Proof.
  destruct slot as [p q].
  evaluate_handler. unfold registered. cbn.
  repeat split; discriminate.
Qed.

(** X12.  A save that goes through puts up the "Saved!" notification and
    starts its timeout, whether a notification was up before or not; when
    the timeout fires the notification is hidden and the timeout is gone.
    A save that raises leaves the notification as it was. *)
Theorem X12_save_puts_up_the_notification
  (w : AppWindow) (dialog : DialogRun)
  (Hd : m_document w <> None)
  (Hs : m_signalSaved w = [ShowSavedNotification])
  (Ha : dlg_result dialog = GTK_RESPONSE_ACCEPT) :
  (exists w', onSaveAction dialog false w = Ret tt w'
     /\ m_revealerDone w' = true
     /\ m_connectionSaved w' = true
     /\ exists w'', dispatch SavedTimeout w' = Ret tt w''
          /\ m_revealerDone w'' = false
          /\ m_connectionSaved w'' = false)
  /\ (exists w', onSaveAction dialog true w = Ret tt w'
        /\ m_revealerDone w' = m_revealerDone w
        /\ m_connectionSaved w' = m_connectionSaved w).
Proof.
  destruct dialog as [res file]. cbn in Ha. subst res.
  break_window w. cbn in Hd, Hs. subst.
  match goal with
  | H : ?od <> None |- _ => destruct od as [d|]; [clear H|congruence]
  end.
  match goal with
  | |- context [{| m_connectionSaved := ?c |}] => destruct c
  end.
  - split.
    + evaluate_handler. split; [reflexivity|]. split; [reflexivity|].
      evaluate_handler. split; reflexivity.
    + evaluate_handler. split; reflexivity.
  - split.
    + evaluate_handler. split; [reflexivity|]. split; [reflexivity|].
      evaluate_handler. split; reflexivity.
    + evaluate_handler. split; reflexivity.
Qed.

Lemma X12_save_puts_up_the_notification_witness :
  m_document sample_window <> None /\
  m_signalSaved sample_window = [ShowSavedNotification] /\
  dlg_result (accepted b_pdf) = GTK_RESPONSE_ACCEPT /\
  exists w', onSaveAction (accepted b_pdf) false sample_window = Ret tt w'
     /\ m_revealerDone w' = true
     /\ m_connectionSaved w' = true.
Proof.
  assert (Hd : m_document sample_window <> None) by discriminate.
  split; [exact Hd|]. split; [reflexivity|]. split; [reflexivity|].
  destruct (X12_save_puts_up_the_notification sample_window (accepted b_pdf)
              Hd eq_refl eq_refl) as [(w' & E & Hr & Hc & _) _].
  exists w'. repeat split; assumption.
Defined.

(** X13.  Saving changes nothing but the notification and the record of
    what happened: whether the dialog is cancelled, the file is written
    or writing raises, the document with its history, the four actions,
    the cursor, the overlay and the command slot with its waiting
    commands are as before. *)
Theorem X13_save_changes_nothing_else
  (w : AppWindow) (dialog : DialogRun) (throws : bool)
  (Hd : m_document w <> None) :
  exists w', onSaveAction dialog throws w = Ret tt w'
    /\ m_document w' = m_document w
    /\ m_commandSlot w' = m_commandSlot w
    /\ m_overlay w' = m_overlay w
    /\ m_openAction w' = m_openAction w
    /\ m_saveAction w' = m_saveAction w
    /\ m_undoAction w' = m_undoAction w
    /\ m_redoAction w' = m_redoAction w
    /\ window_cursor w' = window_cursor w.
Proof.
  destruct (onSaveAction_core dialog throws w Hd)
    as (w' & E & Hs & Hdoc & Ho & Hop & Hsa & Hu & Hr & Hc & _).
  exists w'. repeat split; assumption.
Qed.

Lemma X13_save_changes_nothing_else_witness :
  m_document sample_window <> None /\
  exists w', onSaveAction (accepted b_pdf) true sample_window = Ret tt w'
    /\ m_document w' = m_document sample_window.
Proof.
  assert (Hd : m_document sample_window <> None) by discriminate.
  split; [exact Hd|].
  destruct (X13_save_changes_nothing_else sample_window (accepted b_pdf) true Hd)
    as (w' & E & Hdoc & _).
  exists w'. split; assumption.
Defined.

(** ** The "Saved!" notification in time *)

Lemma interval_positive : 0 < SavedNotice.interval.
Proof. unfold SavedNotice.interval. lia. Qed.

Ltac notice_simpl :=
  cbn [SavedNotice.reveal_child SavedNotice.sources SavedNotice.connection
       SavedNotice.next_id SavedNotice.clock SavedNotice.set_reveal_child
       SavedNotice.signal_timeout_connect SavedNotice.onTimeout
       SavedNotice.onCloseClicked SavedNotice.t_id SavedNotice.t_due
       SavedNotice.step SavedNotice.age_step SavedNotice.closed_step
       filter existsb fold_left app negb orb andb option_map] in *.

Lemma notice_tracks_step (a : option nat) (c : bool)
  (s : SavedNotice.Notice) (e : SavedNotice.Ev) :
  SavedNotice.tracks a c s ->
  SavedNotice.tracks (SavedNotice.age_step a e) (SavedNotice.closed_step c e)
                     (SavedNotice.step s e).
Proof.
  intro H. pose proof interval_positive as Hpos.
  destruct s as [r src con nid clk].
  assert (Hfresh : SavedNotice.tracks (Some 0) false
            (SavedNotice.mkNotice true
               [SavedNotice.mkTimeout nid (clk + SavedNotice.interval)]
               (Some nid) (S nid) clk)).
  { unfold SavedNotice.tracks.
    destruct (Nat.ltb_spec 0 SavedNotice.interval) as [_|Hge]; [|lia].
    exists nid. notice_simpl. rewrite Nat.sub_0_r. repeat split. }
  unfold SavedNotice.tracks in H. notice_simpl.
  destruct e as [|dt|]; notice_simpl.
  - (* Saved *)
    unfold SavedNotice.onSaved, SavedNotice.connected,
      SavedNotice.disconnect, SavedNotice.is_source.
    destruct a as [n|];
      [destruct (Nat.ltb_spec n SavedNotice.interval) as [Hlt|Hge]|].
    + destruct H as (id & -> & -> & ->). notice_simpl.
      rewrite Nat.eqb_refl. notice_simpl. exact Hfresh.
    + destruct H as (-> & ->). notice_simpl.
      destruct con; notice_simpl; exact Hfresh.
    + destruct H as (-> & ->). notice_simpl.
      destruct con; notice_simpl; exact Hfresh.
  - (* Elapse *)
    unfold SavedNotice.tracks, SavedNotice.elapse, SavedNotice.is_due.
    destruct a as [n|]; notice_simpl;
      [destruct (Nat.ltb_spec n SavedNotice.interval) as [Hlt|Hge]|].
    + destruct H as (id & -> & -> & ->). notice_simpl.
      destruct (Nat.leb (clk + (SavedNotice.interval - n)) (clk + dt))
        eqn:Edue; notice_simpl; rewrite ?Edue; notice_simpl.
      * apply Nat.leb_le in Edue.
        destruct (Nat.ltb_spec (n + dt) SavedNotice.interval); [lia|].
        split; reflexivity.
      * apply Nat.leb_gt in Edue.
        destruct (Nat.ltb_spec (n + dt) SavedNotice.interval); [|lia].
        exists id. repeat split. f_equal. f_equal. lia.
    + destruct H as (-> & ->). notice_simpl.
      destruct (Nat.ltb_spec (n + dt) SavedNotice.interval); [lia|].
      split; reflexivity.
    + destruct H as (-> & ->). notice_simpl. split; reflexivity.
  - (* CloseClicked *)
    unfold SavedNotice.tracks.
    destruct a as [n|];
      [destruct (Nat.ltb n SavedNotice.interval)|]; notice_simpl.
    + destruct H as (id & Hs & Hc & _). exists id. repeat split; assumption.
    + destruct H as (Hs & _). split; [assumption | reflexivity].
    + destruct H as (Hs & _). split; [assumption | reflexivity].
Qed.

Lemma notice_tracks_run (es : list SavedNotice.Ev) :
  forall a c s, SavedNotice.tracks a c s ->
    SavedNotice.tracks (fold_left SavedNotice.age_step es a)
                       (fold_left SavedNotice.closed_step es c)
                       (fold_left SavedNotice.step es s).
Proof.
  induction es as [|e es IH]; intros a c s H; cbn [fold_left].
  - exact H.
  - apply IH. apply notice_tracks_step. exact H.
Qed.

Lemma notice_tracks (es : list SavedNotice.Ev) :
  SavedNotice.tracks (SavedNotice.age es) (SavedNotice.closed es)
                     (SavedNotice.run es).
Proof.
  apply notice_tracks_run. unfold SavedNotice.tracks, SavedNotice.initial.
  notice_simpl. split; reflexivity.
Qed.

(** X14.  The "Saved!" notification is visible exactly when the last save
    went through less than 5000 milliseconds ago and the close button was
    not clicked since.  An earlier save's timeout cannot hide the
    notification of a later save, and without a further save the
    notification is down once 5000 milliseconds have passed. *)
Theorem X14_notice_visible_iff_recent_save (es : list SavedNotice.Ev) :
  SavedNotice.reveal_child (SavedNotice.run es) = true
  <-> exists n, SavedNotice.age es = Some n
                /\ n < 5000
                /\ SavedNotice.closed es = false.
Proof.
  pose proof (notice_tracks es) as H. unfold SavedNotice.tracks in H.
  change 5000 with SavedNotice.interval.
  destruct (SavedNotice.age es) as [n|].
  - destruct (Nat.ltb_spec n SavedNotice.interval) as [Hlt|Hge].
    + destruct H as (id & _ & _ & Hr). rewrite Hr. split.
      * intro Hc. exists n. split; [reflexivity|]. split; [exact Hlt|].
        destruct (SavedNotice.closed es); [discriminate Hc | reflexivity].
      * intros (m & _ & _ & Hc). rewrite Hc. reflexivity.
    + destruct H as (_ & Hr). rewrite Hr. split; [discriminate|].
      intros (m & Hm & Hlt & _). inversion Hm. subst m. lia.
  - destruct H as (_ & Hr). rewrite Hr. split; [discriminate|].
    intros (m & Hm & _). discriminate Hm.
Qed.

(** X15.  At most one hiding timeout is on the main loop at any time: a
    new save disconnects the timeout of the save before.  The timeout on
    the loop is the one [m_connectionSaved] refers to, and it is due 5000
    milliseconds after the last save; once it is due nothing is left on
    the loop. *)
Theorem X15_single_hiding_timeout (es : list SavedNotice.Ev) :
  length (SavedNotice.sources (SavedNotice.run es)) <= 1
  /\ (forall t, In t (SavedNotice.sources (SavedNotice.run es)) ->
        SavedNotice.connection (SavedNotice.run es)
          = Some (SavedNotice.t_id t)
        /\ exists n, SavedNotice.age es = Some n /\ n < 5000
             /\ SavedNotice.t_due t + n
                = SavedNotice.clock (SavedNotice.run es) + 5000)
  /\ (forall n, SavedNotice.age es = Some n -> 5000 <= n ->
        SavedNotice.sources (SavedNotice.run es) = []
        /\ SavedNotice.connected (SavedNotice.run es) = false).
Proof.
  pose proof (notice_tracks es) as H. unfold SavedNotice.tracks in H.
  change 5000 with SavedNotice.interval.
  destruct (SavedNotice.age es) as [n|].
  - destruct (Nat.ltb_spec n SavedNotice.interval) as [Hlt|Hge].
    + destruct H as (id & Hs & Hc & _). rewrite Hs.
      split; [cbn [length]; lia|].
      split.
      * intros t [<-|[]]. notice_simpl. split; [exact Hc|].
        exists n. split; [reflexivity|]. split; [exact Hlt|]. lia.
      * intros m Hm Hle. inversion Hm. subst m. lia.
    + destruct H as (Hs & _). rewrite Hs. split; [cbn [length]; lia|].
      split; [intros t []|].
      intros m _ _. split; [reflexivity|].
      unfold SavedNotice.connected. rewrite Hs.
      destruct (SavedNotice.connection (SavedNotice.run es)); reflexivity.
  - destruct H as (Hs & _). rewrite Hs. split; [cbn [length]; lia|].
    split; [intros t []|]. intros m Hm. discriminate Hm.
Qed.

(** After the "saved" lambda has run the notification is up and the
    connection has its source on the loop, whatever was there before. *)
Lemma notice_onSaved_view (s : SavedNotice.Notice) :
  SavedNotice.reveal_child (SavedNotice.onSaved s) = true
  /\ SavedNotice.connected (SavedNotice.onSaved s) = true.
Proof.
  unfold SavedNotice.onSaved.
  set (s1 := if SavedNotice.connected s then SavedNotice.disconnect s else s).
  clearbody s1. destruct s1 as [r src con nid clk].
  unfold SavedNotice.connected. notice_simpl.
  split; [reflexivity|].
  rewrite existsb_app. notice_simpl.
  unfold SavedNotice.is_source at 2. notice_simpl.
  rewrite Nat.eqb_refl. apply orb_true_r.
Qed.

(** The two booleans the window keeps for the notification are what the
    timed account shows of it: the revealer's flag, and whether the
    connection still has its source on the loop. *)
Lemma notice_matches_window (a : option nat) (c : bool)
  (s : SavedNotice.Notice) (w : AppWindow) :
  SavedNotice.tracks a c s ->
  m_revealerDone w = SavedNotice.reveal_child s ->
  m_connectionSaved w = SavedNotice.connected s ->
  (exists w', onSaved w = Ret tt w'
     /\ m_revealerDone w' = SavedNotice.reveal_child (SavedNotice.onSaved s)
     /\ m_connectionSaved w' = SavedNotice.connected (SavedNotice.onSaved s))
  /\ (exists w', onCloseDoneClicked w = Ret tt w'
     /\ m_revealerDone w'
        = SavedNotice.reveal_child (SavedNotice.onCloseClicked s)
     /\ m_connectionSaved w'
        = SavedNotice.connected (SavedNotice.onCloseClicked s))
  /\ (forall dt,
        exists w',
          (if existsb (SavedNotice.is_due (SavedNotice.clock s + dt))
                      (SavedNotice.sources s)
           then onSavedTimeout w else Ret tt w) = Ret tt w'
          /\ m_revealerDone w'
             = SavedNotice.reveal_child (SavedNotice.elapse dt s)
          /\ m_connectionSaved w'
             = SavedNotice.connected (SavedNotice.elapse dt s)).
Proof.
  intros Ht Hr Hc. split; [|split].
  - destruct (notice_onSaved_view s) as [-> ->].
    unfold onSaved, bind, read, when, modify, ret.
    destruct (m_connectionSaved w); eexists; (split; [reflexivity|]);
      split; reflexivity.
  - unfold onCloseDoneClicked, modify. eexists. split; [reflexivity|].
    cbn [m_revealerDone m_connectionSaved with_revealerDone].
    split; [reflexivity | exact Hc].
  - intro dt. destruct s as [r src con nid clk].
    unfold SavedNotice.tracks in Ht. notice_simpl.
    unfold SavedNotice.connected in *. notice_simpl.
    assert (Hempty : src = [] -> r = false ->
              exists w', Ret tt w = Ret tt w'
                /\ m_revealerDone w'
                   = SavedNotice.reveal_child
                       (SavedNotice.elapse dt
                          (SavedNotice.mkNotice r src con nid clk))
                /\ m_connectionSaved w'
                   = match SavedNotice.connection
                             (SavedNotice.elapse dt
                                (SavedNotice.mkNotice r src con nid clk)) with
                     | Some id =>
                         existsb (SavedNotice.is_source id)
                           (SavedNotice.sources
                              (SavedNotice.elapse dt
                                 (SavedNotice.mkNotice r src con nid clk)))
                     | None => false
                     end).
    { intros -> ->. exists w. split; [reflexivity|].
      unfold SavedNotice.elapse. notice_simpl.
      split; [exact Hr|]. rewrite Hc. destruct con; reflexivity. }
    destruct a as [n|];
      [destruct (Nat.ltb n SavedNotice.interval)|].
    + destruct Ht as (id & -> & -> & ->).
      unfold SavedNotice.elapse, SavedNotice.is_due,
        SavedNotice.is_source in *. notice_simpl.
      rewrite Nat.eqb_refl in Hc. notice_simpl.
      destruct (Nat.leb (clk + (SavedNotice.interval - n)) (clk + dt))
        eqn:Edue; notice_simpl; rewrite ?Edue; notice_simpl.
      * unfold onSavedTimeout. rewrite Hc. eexists.
        split; [reflexivity|]. split; reflexivity.
      * exists w. split; [reflexivity|]. rewrite Nat.eqb_refl.
        split; assumption.
    + destruct Ht as (Hs & Hrv). subst src. notice_simpl.
      apply Hempty; [reflexivity | assumption].
    + destruct Ht as (Hs & Hrv). subst src. notice_simpl.
      apply Hempty; [reflexivity | assumption].
Qed.
